(** * Belay's package manager: locator resolution, downloader dispatch and
      the group orchestrator

    A shallow embedding of
      - [src/belay/packagemanager.py]            (module [Legacy]),
      - [src/belay/packagemanager/downloaders/common.py] and
        [src/belay/packagemanager/group.py]     (module [Pkg]),
    over a filesystem given as a finite map from paths to nodes.  Python
    exceptions are values of [exn]; code that can raise returns a [result],
    and code that also touches the filesystem is written in the state and
    exception monad [M], whose state survives a raise exactly as Python's
    side effects do. *)

From Stdlib Require Import Ascii String List Bool Arith Lia.
From stdpp Require Import base option list strings pretty gmap fin_maps.

Open Scope string_scope.
Open Scope list_scope.

(** ** Exceptions and results *)

Inductive exn : Type :=
| NonMatchingURL                      (* packagemanager.py, line 13 *)
| NonMatchingURI                      (* downloaders/common.py, line 16 *)
| ValueError (msg : string)
| KeyError (key : string)
| NotImplementedError (msg : string)
| SyntaxError
| FileExistsError
| FileNotFoundError
| NotADirectoryError
| IsADirectoryError
| ExternalError (msg : string).       (* raised by httpx, fsspec or sync *)

Inductive result (A : Type) : Type :=
| Ok (a : A)
| Raise (e : exn).
Arguments Ok {A} a.
Arguments Raise {A} e.

#[global] Instance exn_eq_dec : EqDecision exn.
Proof. solve_decision. Defined.

#[global] Instance result_eq_dec {A} `{EqDecision A} : EqDecision (result A).
Proof. solve_decision. Defined.

(** ** Python string operations used by the source *)

Module Str.

(** [s[n:]] *)
Fixpoint drop (n : nat) (s : string) : string :=
  match n, s with
  | O, _ => s
  | S _, EmptyString => EmptyString
  | S n', String _ s' => drop n' s'
  end.

(** [s[:n]] *)
Fixpoint take (n : nat) (s : string) : string :=
  match n, s with
  | O, _ => EmptyString
  | S _, EmptyString => EmptyString
  | S n', String c s' => String c (take n' s')
  end.

(** [s.startswith(p)] *)
Definition startswith (p s : string) : bool := String.prefix p s.

(** [s.split(sep)] for a separator of one character; the result is never
    empty: [''.split('/') = ['']]. *)
Fixpoint split (sep : ascii) (s : string) : list string :=
  match s with
  | EmptyString => [EmptyString]
  | String c s' =>
      if Ascii.eqb c sep then EmptyString :: split sep s'
      else match split sep s' with
           | [] => [String c EmptyString]
           | w :: ws => String c w :: ws
           end
  end.

(** [sep.join(l)] *)
Fixpoint join (sep : string) (l : list string) : string :=
  match l with
  | [] => EmptyString
  | [w] => w
  | w :: ws => w +:+ sep +:+ join sep ws
  end.

(** [c in s] *)
Fixpoint contains (c : ascii) (s : string) : bool :=
  match s with
  | EmptyString => false
  | String d s' => Ascii.eqb d c || contains c s'
  end.

(** [s.find(c)], [None] standing for Python's [-1]. *)
Fixpoint find (c : ascii) (s : string) : option nat :=
  match s with
  | EmptyString => None
  | String d s' => if Ascii.eqb d c then Some 0 else S <$> find c s'
  end.

(** [s.rfind(c)] *)
Fixpoint rfind (c : ascii) (s : string) : option nat :=
  match s with
  | EmptyString => None
  | String d s' =>
      match rfind c s' with
      | Some i => Some (S i)
      | None => if Ascii.eqb d c then Some 0 else None
      end
  end.

(** [s.split(c, 1)] when [c in s]: the text before and after the first [c]. *)
Definition cut (c : ascii) (s : string) : string * string :=
  match find c s with
  | Some i => (take i s, drop (S i) s)
  | None => (s, EmptyString)
  end.

Definition forallb (f : ascii -> bool) (s : string) : bool :=
  List.forallb f (list_ascii_of_string s).

Definition lower_ascii (c : ascii) : ascii :=
  let n := nat_of_ascii c in
  if ((65 <=? n)%nat && (n <=? 90)%nat) then ascii_of_nat (n + 32) else c.

Fixpoint lower (s : string) : string :=
  match s with
  | EmptyString => EmptyString
  | String c s' => String (lower_ascii c) (lower s')
  end.

(** Carriage return and line feed. *)
Definition CR : ascii := ascii_of_nat 13.
Definition LF : ascii := ascii_of_nat 10.

(** What reading a file in text mode does to its line ends (universal
    newlines): CR LF and a lone CR both become LF. *)
Fixpoint universal_newlines (s : string) : string :=
  match s with
  | EmptyString => EmptyString
  | String c s' =>
      if Ascii.eqb c CR then
        match s' with
        | String c' s'' =>
            if Ascii.eqb c' LF then String LF (universal_newlines s'')
            else String LF (universal_newlines s')
        | EmptyString => String LF EmptyString
        end
      else String c (universal_newlines s')
  end.

(** [s.lstrip(chars)] for the characters that satisfy [f] *)
Fixpoint lstrip (f : ascii -> bool) (s : string) : string :=
  match s with
  | EmptyString => EmptyString
  | String c s' => if f c then lstrip f s' else s
  end.

(** [s] without the characters that satisfy [f] *)
Fixpoint remove (f : ascii -> bool) (s : string) : string :=
  match s with
  | EmptyString => EmptyString
  | String c s' => if f c then remove f s' else String c (remove f s')
  end.

End Str.

(** ** [urllib.parse.urlparse]

    The source calls the standard library's [urlparse] and reads the
    [netloc] and [path] fields of what it returns.  The functions of the
    source are embedded over an arbitrary [urlparse] (a section variable),
    so the general theorems hold whatever the library does.  [py_urlparse]
    below follows CPython's [urlsplit]/[urlparse] on text with an ASCII
    host: leading blanks are stripped, tabs and line ends removed, and a
    bracket left open or never opened in the host raises ValueError (what
    stands between matching brackets is not checked).  It is the instance
    at which the functions are evaluated on concrete URLs. *)

Record ParseResult : Type := mkParseResult {
  scheme : string;
  netloc : string;
  path : string;
  params : string;
  query : string;
  fragment : string
}.

Module Urllib.

Definition scheme_char (c : ascii) : bool :=
  let n := nat_of_ascii c in
  ((97 <=? n)%nat && (n <=? 122)%nat) || ((65 <=? n)%nat && (n <=? 90)%nat)
  || ((48 <=? n)%nat && (n <=? 57)%nat)
  || Ascii.eqb c "+" || Ascii.eqb c "-" || Ascii.eqb c ".".

(** [c.isascii() and c.isalpha()] *)
Definition is_alpha (c : ascii) : bool :=
  let n := nat_of_ascii c in
  ((97 <=? n)%nat && (n <=? 122)%nat) || ((65 <=? n)%nat && (n <=? 90)%nat).

(** The characters [urlsplit] strips from the left of the URL (C0 controls
    and the space) and those it removes wherever they stand (tab, CR, LF). *)
Definition c0_control_or_space (c : ascii) : bool := (nat_of_ascii c <=? 32)%nat.

Definition unsafe_char (c : ascii) : bool :=
  let n := nat_of_ascii c in
  Nat.eqb n 9 || Nat.eqb n 13 || Nat.eqb n 10.

Definition uses_params : list string :=
  [""; "ftp"; "hdl"; "prospero"; "http"; "imap"; "https"; "shttp"; "rtsp";
   "rtspu"; "sip"; "sips"; "mms"; "sftp"; "tel"].

(** [_splitnetloc(url, 2)]: the text between the leading [//] and the first
    of [/], [?], [#]. *)
Definition _splitnetloc (url : string) : string * string :=
  let rest := Str.drop 2 url in
  let pos c := default (String.length rest) (Str.find c rest) in
  let delim := Nat.min (pos "/"%char) (Nat.min (pos "?"%char) (pos "#"%char)) in
  (Str.take delim rest, Str.drop delim rest).

(** [_splitparams(url)] *)
Definition _splitparams (url : string) : string * string :=
  let from_last_slash :=
    match Str.rfind "/"%char url with
    | Some j =>
        match Str.find ";"%char (Str.drop j url) with
        | Some k => Some (j + k)
        | None => None
        end
    | None => Str.find ";"%char url
    end in
  match from_last_slash with
  | Some i => (Str.take i url, Str.drop (S i) url)
  | None => (url, EmptyString)
  end.

Definition urlparse (url : string) : result ParseResult :=
  let url0 := Str.remove unsafe_char (Str.lstrip c0_control_or_space url) in
  let '(scheme, url) :=
    match Str.find ":"%char url0 with
    | Some (S i) =>
        if is_alpha (default "000"%char (String.get 0 url0))
           && Str.forallb scheme_char (Str.take (S i) url0)
        then (Str.lower (Str.take (S i) url0), Str.drop (S (S i)) url0)
        else (EmptyString, url0)
    | _ => (EmptyString, url0)
    end in
  let '(netloc, url) :=
    if Str.startswith "//" url then _splitnetloc url else (EmptyString, url) in
  if xorb (Str.contains "["%char netloc) (Str.contains "]"%char netloc)
  then Raise (ValueError "Invalid IPv6 URL")
  else
    let '(url, fragment) := Str.cut "#"%char url in
    let '(url, query) := Str.cut "?"%char url in
    let '(url, params) :=
      if bool_decide (scheme ∈ uses_params) && Str.contains ";"%char url
      then _splitparams url else (url, EmptyString) in
    Ok (mkParseResult scheme netloc url params query fragment).

End Urllib.

Definition py_urlparse : string -> result ParseResult := Urllib.urlparse.

(** ** [pathlib] paths and the filesystem

    A path is the list of its components from the filesystem root; the
    working directory is the root, so a relative and an absolute spelling
    of the same components denote the same path.  Components are taken
    literally (no symbolic links, no resolution of [..]). *)

Abbreviation fspath := (list string).

Module Path.

(** [Path(s)]: the components of [s], empty ones and [.] dropped. *)
Definition of_string (s : string) : fspath :=
  filter (λ c, c ≠ "" ∧ c ≠ ".") (Str.split "/" s).

(** [p / s] *)
Definition div (p : fspath) (s : string) : fspath :=
  if Str.startswith "/" s then of_string s else p ++ of_string s.

(** [p.name] *)
Definition name (p : fspath) : string := List.last p "".

(** [p.parent] *)
Definition parent (p : fspath) : fspath := removelast p.

(** [p.suffix]: [name[i:]] for [i = name.rfind('.')] when
    [0 < i < len(name) - 1], else the empty string. *)
Definition suffix (p : fspath) : string :=
  let name := name p in
  match Str.rfind "." name with
  | Some (S i) => if (S (S i) <? String.length name)%nat
                  then Str.drop (S i) name else ""
  | _ => ""
  end.

End Path.

Inductive node : Type :=
| File (content : string)
| Dir.

#[global] Instance node_eq_dec : EqDecision node.
Proof. solve_decision. Defined.

Abbreviation FS := (gmap (list string) node).

Module Fs.

(** [p] lies below [d], [d] itself excluded. *)
Definition below (d p : fspath) : Prop := d `prefix_of` p ∧ p ≠ d.

#[global] Instance below_dec d p : Decision (below d p).
Proof. unfold below. apply _. Defined.

Definition is_dir (fs : FS) (p : fspath) : bool :=
  match p, fs !! p with
  | [], _ => true
  | _, Some Dir => true
  | _, _ => false
  end.

(** [p.exists()] *)
Definition exists_ (fs : FS) (p : fspath) : bool :=
  match p, fs !! p with
  | [], _ => true
  | _, Some _ => true
  | _, None => false
  end.

(** The directory entries of [d], as [d.glob("*")] yields them.  The
    order is the map's; the operating system promises none. *)
Definition glob (fs : FS) (d : fspath) : list (fspath * node) :=
  filter (λ e, Path.parent e.1 = d ∧ e.1 ≠ []) (map_to_list fs).

(** Everything below [d], as [d.rglob("*")] yields it. *)
Definition rglob (fs : FS) (d : fspath) : list (fspath * node) :=
  filter (λ e, below d e.1) (map_to_list fs).

(** [p.mkdir(parents=True, exist_ok=True)], walking down from [base]
    through the components [rest]: a missing directory is created, a file
    in the way raises. *)
Fixpoint mkdir_from (fs : FS) (base : fspath) (rest : list string)
  : FS * result unit :=
  match rest with
  | [] => (fs, Ok tt)
  | c :: rest' =>
      let p := base ++ [c] in
      match fs !! p with
      | Some Dir => mkdir_from fs p rest'
      | Some (File _) =>
          (fs, Raise (match rest' with [] => FileExistsError
                                     | _ => NotADirectoryError end))
      | None => mkdir_from (<[p := Dir]> fs) p rest'
      end
  end.

Definition mkdir_parents (fs : FS) (p : fspath) : FS * result unit :=
  mkdir_from fs [] p.

(** [p.unlink()]: removes a file and refuses a directory. *)
Definition unlink (fs : FS) (p : fspath) : FS * result unit :=
  match fs !! p with
  | Some (File _) => (delete p fs, Ok tt)
  | Some Dir => (fs, Raise IsADirectoryError)
  | None => (fs, Raise FileNotFoundError)
  end.

(** [p.read_text()]: the file is read in text mode, so its line ends come
    back as LF whatever they are on disk. *)
Definition read_text (fs : FS) (p : fspath) : result string :=
  match fs !! p with
  | Some (File c) => Ok (Str.universal_newlines c)
  | Some Dir => Raise IsADirectoryError
  | None => Raise FileNotFoundError
  end.

(** [p.open("w").write(data)]: the directory of [p] must exist, and [p]
    must not be a directory.  The text goes to disk as it is (the line
    separator of the platform is LF). *)
Definition write (fs : FS) (p : fspath) (data : string) : FS * result unit :=
  match p with
  | [] => (fs, Raise IsADirectoryError)
  | _ =>
      if is_dir fs (Path.parent p) then
        match fs !! p with
        | Some Dir => (fs, Raise IsADirectoryError)
        | _ => (<[p := File data]> fs, Ok tt)
        end
      else (fs, Raise (if exists_ fs (Path.parent p)
                       then NotADirectoryError else FileNotFoundError))
  end.

(** [shutil.rmtree(d)]: [d] and everything below it. *)
Definition rmtree (fs : FS) (d : fspath) : FS :=
  filter (λ e, ¬ d `prefix_of` e.1) fs.

(** What the folder [d] holds: every entry below it, with its content. *)
Definition tree (fs : FS) (d : fspath) : FS :=
  filter (λ e, below d e.1) fs.

End Fs.

(** ** The world and the monad of effects

    Besides the filesystem the world records, in order, the calls made to
    the collaborators the source reaches out to: registered downloaders,
    the generic downloader, the sync engine, HTTP requests and the
    console. *)

Inductive event : Type :=
| CallDownloader (name : string) (dst : fspath) (uri : string)
| CallGeneric (dst : fspath) (uri : string)
| CallSync (src dst : fspath)
| HttpGet (url : string)
| ConsoleLog (msg : string).

#[global] Instance event_eq_dec : EqDecision event.
Proof. solve_decision. Defined.

Record World : Type := mkWorld {
  fs : FS;
  trace : list event
}.

Definition M (A : Type) : Type := World → World * result A.

#[global] Instance M_ret : MRet M := λ A a w, (w, Ok a).

#[global] Instance M_bind : MBind M := λ A B f m w,
  match m w with
  | (w', Ok a) => f a w'
  | (w', Raise e) => (w', Raise e)
  end.

Definition raise {A} (e : exn) : M A := λ w, (w, Raise e).

(** [try: m  except e: handler] *)
Definition try_except {A} (m : M A) (e : exn) (handler : M A) : M A :=
  λ w, match m w with
       | (w', Raise e') => if decide (e' = e) then handler w' else (w', Raise e')
       | r => r
       end.

(** [try: m  finally: cleanup], for a cleanup that cannot raise. *)
Definition finally {A} (m : M A) (cleanup : World → World) : M A :=
  λ w, let '(w', r) := m w in (cleanup w', r).

(** [for x in l: body(x)] *)
Fixpoint for_each {A} (l : list A) (body : A → M unit) : M unit :=
  match l with
  | [] => mret tt
  | x :: l' => body x ;; for_each l' body
  end.

(** The loop the specification describes for a group: a package that
    fails is set aside and the loop goes on with the next one. *)
Fixpoint for_each_isolated {A} (l : list A) (body : A → M unit) : M unit :=
  match l with
  | [] => mret tt
  | x :: l' => λ w, for_each_isolated l' body (body x w).1
  end.

Definition emit (ev : event) : M unit :=
  λ w, (mkWorld (fs w) (trace w ++ [ev]), Ok tt).

(** An operation of the filesystem alone, lifted to the world. *)
Definition on_fs {A} (op : FS → FS * result A) : M A :=
  λ w, let '(fs', r) := op (fs w) in (mkWorld fs' (trace w), r).

Definition of_result {A} (r : result A) : M A := λ w, (w, r).

(** [d[key]] on a dict in insertion order. *)
Fixpoint getitem {V} (d : list (string * V)) (key : string) : result V :=
  match d with
  | [] => Raise (KeyError key)
  | (k, v) :: d' => if String.eqb k key then Ok v else getitem d' key
  end.

(** [list(d.keys())] *)
Definition keys {V} (d : list (string * V)) : list string := d.*1.

(** A declared dependency: the value the manifest gives a package name.
    [DepOther] stands for any value that is neither text, list nor table. *)
Inductive dep_value : Type :=
| DepStr (s : string)
| DepList (l : list string)
| DepDict (d : list (string * string))
| DepOther.

(** [console.log(msg)] under [if console:] *)
Definition log (console : bool) (msg : string) : M unit :=
  if console then emit (ConsoleLog msg) else mret tt.

(** [not packages] for an [Optional[List[str]]] *)
Definition not_ (packages : option (list string)) : bool :=
  match packages with
  | None | Some [] => true
  | Some (_ :: _) => false
  end.

(** ** [src/belay/packagemanager.py]: the locator resolver *)

Module Legacy.

Definition _strip_www (url : string) : string :=
  if Str.startswith "www." url then Str.drop 4 url else url.

Section Resolver.

Variable urlparse : string -> result ParseResult.

(** Transforms github-like url into githubusercontent. *)
Definition _process_url_github (url : string) : result string :=
  match urlparse url with
  | Raise e => Raise e
  | Ok parsed =>
      let netloc := _strip_www (netloc parsed) in
      if String.eqb netloc "github.com" then
        match Str.split "/" (path parsed) with
        | _ :: user :: project :: mode :: branch :: path =>
            Ok ("https://raw.githubusercontent.com/" +:+ user +:+ "/" +:+ project
                +:+ "/" +:+ branch +:+ "/" +:+ Str.join "/" path)
        | _ => Raise (ValueError "not enough values to unpack")
        end
      else if String.eqb netloc "raw.githubusercontent.com" then
        Ok ("https://raw.githubusercontent.com" +:+ path parsed)
      else Raise NonMatchingURL
  end.

(** The [for parser in parsers: try ... except NonMatchingURL: pass] loop,
    followed by [return url]. *)
Fixpoint try_parsers (parsers : list (string -> result string)) (url : string)
  : result string :=
  match parsers with
  | [] => Ok url
  | parser :: parsers' =>
      match parser url with
      | Raise NonMatchingURL => try_parsers parsers' url
      | r => r
      end
  end.

Definition _process_url (url : string) : result string :=
  try_parsers [_process_url_github] url.

End Resolver.


Section Download.

Variable urlparse : string → result ParseResult.
(** [httpx.get(url)] followed by [raise_for_status()] and [.text] *)
Variable httpx_get : string → result string.
(** whether [ast.parse(code)] returns *)
Variable ast_parses : string → bool.

Definition _get_text (url : string) : M string :=
  emit (HttpGet url);; of_result (httpx_get url).

(** The body of the loop of [download_dependencies], lines 97 to 127.
    [sleep(1)] and the [console.status] context manager leave the world as
    it is and are not written out. *)
Definition download_dependency (dependencies : list (string * dep_value))
    (local_dir : fspath) (console : bool) (pkg_name : string) : M unit :=
  dep ← of_result (getitem dependencies pkg_name);
  dep ← match dep with
        | DepStr s => mret [("path", s)]
        | DepDict d => mret d
        | _ => raise (ValueError ("Invalid value for key " +:+ pkg_name +:+ "."))
        end;
  log console (pkg_name +:+ ": Updating...");;
  path_ ← of_result (getitem dep "path");
  url ← of_result (_process_url urlparse path_);
  let ext := Path.suffix (Path.of_string url) in
  if String.eqb ext ".py" then
    let dst := Path.div local_dir (pkg_name +:+ ext) in
    on_fs (λ fs, Fs.mkdir_parents fs (Path.parent dst));;
    new_code ← _get_text url;
    (if ast_parses new_code then mret tt else raise SyntaxError);;
    old_code ← ((λ w, (w, match Fs.read_text (fs w) dst with
                          | Raise FileNotFoundError => Ok ""
                          | r => r
                          end)) : M string);
    if String.eqb new_code old_code
    then log console (pkg_name +:+ ": No changes detected.")
    else log console (pkg_name +:+ ": Updated.");;
         on_fs (λ fs, Fs.write fs dst new_code)
  else raise (NotImplementedError ("Don't know how to process " +:+ url +:+ ".")).

Definition download_dependencies (dependencies : list (string * dep_value))
    (packages : option (list string)) (local_dir : fspath) (console : bool)
  : M unit :=
  let packages := if not_ packages then keys dependencies
                  else default [] packages in
  for_each packages (download_dependency dependencies local_dir console).

End Download.

End Legacy.

(** ** [src/belay/packagemanager/downloaders/common.py] and
       [src/belay/packagemanager/group.py] *)

(** What [fsspec] can fail with.  It is a third-party library: it cannot
    raise [NonMatchingURI], a class of the module that calls it. *)
Inductive fetch_error : Type :=
| FetchIsADirectory
| FetchFailed (msg : string).

Definition exn_of_fetch (e : fetch_error) : exn :=
  match e with
  | FetchIsADirectory => IsADirectoryError
  | FetchFailed msg => ExternalError msg
  end.

(** A downloader: [def downloader(dst: Path, uri: str) -> Path]. *)
Definition downloader : Type := FS → fspath → string → FS * result fspath.

(** A downloader leaves alone whatever lies outside the directory it is
    given. *)
Definition writes_within (d : downloader) : Prop :=
  ∀ fs dst uri q, ¬ dst `prefix_of` q → (d fs dst uri).1 !! q = fs !! q.

Module Pkg.

Record GroupConfig : Type := mkGroupConfig {
  name : string;
  optional : bool;
  dependencies : list (string * dep_value)
}.

Record Group : Type := mkGroup {
  config : GroupConfig;
  folder : fspath
}.

(** [Group.__init__], given what [find_dependencies_folder()] returns. *)
Definition Group_init (find_dependencies_folder : fspath) (cfg : GroupConfig)
  : result Group :=
  if optional cfg
  then Raise (NotImplementedError "Optional groups not implemented yet.")
  else Ok (mkGroup cfg (Path.div find_dependencies_folder (name cfg))).

Section Env.

(** whether [ast.parse(code)] returns *)
Variable ast_parses : string → bool.
(** [downloaders.values()]: the registered downloaders with their names, in
    registration order *)
Variable downloaders : list (string * downloader).
(** [fsspec.open(uri, "rb")] and [f.read()] *)
Variable fsspec_read : FS → string → string + fetch_error.
(** [fsspec.filesystem("file").get(uri, str(dst), recursive=True)] *)
Variable fsspec_get : FS → string → fspath → FS * option fetch_error.
(** [belay.packagemanager.sync.sync(src, dst)] *)
Variable sync : FS → fspath → fspath → FS * result bool.
(** the name [tempfile.TemporaryDirectory()] picks *)
Variable mkdtemp : FS → fspath.

(** *** downloaders/common.py *)

(** The [except IsADirectoryError:] branch of [_download_generic], entered
    with the value [dst] has at the raise. *)
Definition _download_generic_directory (dst : fspath) (uri : string) : M fspath :=
  λ w, let '(fs', r) := fsspec_get (fs w) uri dst in
       (mkWorld fs' (trace w),
        match r with None => Ok dst | Some e => Raise (exn_of_fetch e) end).

Definition _download_generic (dst : fspath) (uri : string) : M fspath :=
  emit (CallGeneric dst uri);;
  ((λ w, match fsspec_read (fs w) uri with
         | inl data =>
             let dst' := Path.div dst (Path.name (Path.of_string uri)) in
             match Fs.write (fs w) dst' data with
             | (fs', Ok _) => (mkWorld fs' (trace w), Ok dst')
             | (_, Raise IsADirectoryError) => _download_generic_directory dst' uri w
             | (_, Raise e) => (w, Raise e)
             end
         | inr FetchIsADirectory => _download_generic_directory dst uri w
         | inr (FetchFailed msg) => (w, Raise (ExternalError msg))
         end) : M fspath).

Definition call_downloader (p : string * downloader) (dst : fspath) (uri : string)
  : M fspath :=
  emit (CallDownloader p.1 dst uri);; on_fs (λ fs, p.2 fs dst uri).

(** The [for processor in ...: try: return ... except NonMatchingURI: pass]
    loop with its [else:] clause. *)
Fixpoint try_downloaders (processors : list (string * downloader))
    (dst_folder : fspath) (uri : string) : M fspath :=
  match processors with
  | [] => _download_generic dst_folder uri
  | processor :: processors' =>
      try_except (call_downloader processor dst_folder uri) NonMatchingURI
                 (try_downloaders processors' dst_folder uri)
  end.

Definition download_uri (dst_folder : fspath) (uri : string) : M fspath :=
  try_downloaders downloaders dst_folder uri.

(** The downloaders [processors] are called in order and every one of them
    declines; the result is the world they leave behind. *)
Fixpoint all_decline (processors : list (string * downloader))
    (dst_folder : fspath) (uri : string) (w : World) : option World :=
  match processors with
  | [] => Some w
  | processor :: processors' =>
      match call_downloader processor dst_folder uri w with
      | (w', Raise NonMatchingURI) => all_decline processors' dst_folder uri w'
      | _ => None
      end
  end.

(** The calls to [processors], in order, as the trace records them. *)
Definition calls (processors : list (string * downloader))
    (dst_folder : fspath) (uri : string) : list event :=
  (λ p, CallDownloader p.1 dst_folder uri) <$> processors.

(** A call made by dispatch for [uri] into [dst_folder], to a registered
    downloader or to the generic one. *)
Definition is_download (dst_folder : fspath) (uri : string) (ev : event) : Prop :=
  (∃ name, ev = CallDownloader name dst_folder uri) ∨ ev = CallGeneric dst_folder uri.

(** *** group.py *)

(** The body of the loop of [_verify_files].  The text is handed to the
    parser as it is stored: [ast.parse] takes CR LF, CR and LF alike for
    the end of a line. *)
Definition verify_file (f : fspath * node) : result unit :=
  if String.eqb (Path.suffix f.1) ".py" then
    match f.2 with
    | File code => if ast_parses code then Ok tt else Raise SyntaxError
    | Dir => Raise IsADirectoryError
    end
  else Ok tt.

Fixpoint verify_all (files : list (fspath * node)) : result unit :=
  match files with
  | [] => Ok tt
  | f :: files' =>
      match verify_file f with
      | Ok _ => verify_all files'
      | Raise e => Raise e
      end
  end.

Definition _verify_files (folder : fspath) : M unit :=
  λ w, (w, verify_all (Fs.rglob (fs w) folder)).

Definition clean (self : Group) : M unit :=
  λ w,
    let dependencies := keys (dependencies (config self)) in
    if negb (Fs.exists_ (fs w) (folder self)) then (w, Ok tt)
    else
      let existing_deps := (Fs.glob (fs w) (folder self)).*1 in
      for_each existing_deps
        (λ existing_dep,
           if bool_decide (Path.name existing_dep ∈ dependencies) then mret tt
           else on_fs (λ fs, Fs.unlink fs existing_dep)) w.

(** [with tempfile.TemporaryDirectory() as tmp_dir: body]: the directory
    is created on entry and removed, with all it holds, on every exit. *)
Definition enter_tmp : M fspath :=
  λ w, let tmp_dir := mkdtemp (fs w) in
       (mkWorld (<[tmp_dir := Dir]> (fs w)) (trace w), Ok tmp_dir).

Definition leave_tmp (tmp_dir : fspath) (w : World) : World :=
  mkWorld (Fs.rmtree (fs w) tmp_dir) (trace w).

Definition TemporaryDirectory {A} (body : fspath → M A) : M A :=
  tmp_dir ← enter_tmp; finally (body tmp_dir) (leave_tmp tmp_dir).

(** Lines 109 to 124: the destination folder is made, then the declaration
    is read and normalized. *)
Definition prepare (self : Group) (console : bool) (package_name : string)
  : M (list (string * string)) :=
  let local_folder := Path.div (folder self) package_name in
  on_fs (λ fs, Fs.mkdir_parents fs local_folder);;
  dep_src ← of_result (getitem (dependencies (config self)) package_name);
  dep_src ← match dep_src with
            | DepStr s => mret [("remote", s)]
            | DepList _ => raise (NotImplementedError "List dependencies not yet supported.")
            | DepDict d => mret d
            | DepOther => raise (NotImplementedError "Dictionary dependencies not yet supported.")
            end;
  log console (package_name +:+ ": Updating...");;
  mret dep_src.

(** Line 128 *)
Definition fetch (dep_src : list (string * string)) (tmp_dir : fspath) : M fspath :=
  remote ← of_result (getitem dep_src "remote");
  download_uri tmp_dir remote.

(** The run of [download_package] up to the return of [download_uri]: the
    world then holds the staged download, in [tmp_dir]. *)
Definition stage (self : Group) (console : bool) (package_name : string)
  : M fspath :=
  dep_src ← prepare self console package_name;
  tmp_dir ← enter_tmp;
  fetch dep_src tmp_dir;;
  mret tmp_dir.

Definition call_sync (src dst : fspath) : M bool :=
  emit (CallSync src dst);; on_fs (λ fs, sync fs src dst).

(** The body of the loop of [Group.download], lines 109 to 135.  An
    exception raised inside the [with] block leaves the block, after the
    cleanup, and then the loop: nothing in the source catches it. *)
Definition download_package (self : Group) (console : bool) (package_name : string)
  : M unit :=
  let local_folder := Path.div (folder self) package_name in
  dep_src ← prepare self console package_name;
  changed ← TemporaryDirectory (λ tmp_dir,
              fetch dep_src tmp_dir;;
              _verify_files tmp_dir;;
              call_sync tmp_dir local_folder);
  if changed : bool
  then log console ("[bold green]" +:+ package_name +:+ ": Updated.")
  else log console (package_name +:+ ": No changes detected.").

Definition download (self : Group) (packages : option (list string))
    (console : bool) : M unit :=
  let packages := match packages with
                  | None => keys (dependencies (config self))
                  | Some packages => packages
                  end in
  if not_ (Some packages) then mret tt
  else for_each packages (download_package self console).

(** *** What the theorems ask of the collaborators *)

(** Downloaders write inside the directory they are given, and so does
    [fsspec]'s recursive copy. *)
Definition fsspec_get_within : Prop :=
  ∀ fs uri dst q, ¬ dst `prefix_of` q → (fsspec_get fs uri dst).1 !! q = fs !! q.

Definition downloads_within : Prop :=
  (∀ p, p ∈ downloaders → writes_within p.2) ∧ fsspec_get_within.

(** A sync that raises has left the destination as it was (section 6 of
    the specification). *)
Definition sync_fails_clean : Prop :=
  ∀ fs src dst fs' e q,
    sync fs src dst = (fs', Raise e) → dst `prefix_of` q → fs' !! q = fs !! q.

(** The temporary directory and the folder [d] lie apart. *)
Definition tmp_apart (d : fspath) : Prop :=
  ∀ fs, ¬ mkdtemp fs `prefix_of` d ∧ ¬ d `prefix_of` mkdtemp fs.

(** The sync engine writes inside the destination it is given. *)
Definition sync_within : Prop :=
  ∀ fs src dst q, ¬ dst `prefix_of` q → (sync fs src dst).1 !! q = fs !! q.

End Env.

End Pkg.

(** ** A concrete environment *)

Module Demo.

(** A stand-in for [ast.parse]: the text is accepted when its round
    brackets are balanced. *)
Fixpoint balanced_from (depth : nat) (s : string) : bool :=
  match s with
  | EmptyString => Nat.eqb depth 0
  | String c s' =>
      if Ascii.eqb c "(" then balanced_from (S depth) s'
      else if Ascii.eqb c ")" then
        match depth with
        | O => false
        | S depth' => balanced_from depth' s'
        end
      else balanced_from depth s'
  end.

Definition ast_parses (code : string) : bool := balanced_from 0 code.

(** What the network serves: URI and text. *)
Definition remote : list (string * string) :=
  [("https://github.com/acme/lib/good.py", "def f(): return (1)");
   ("https://github.com/acme/lib/bad.py", "def f(: return 1");
   ("https://raw.githubusercontent.com/acme/lib/main/good.py", "def g(): return ()");
   ("https://example.com/lib/plain.py", "x = (1)");
   ("https://example.com/lib/broken.py", "x = (1")].

(** A downloader that claims the URIs of one host and declines the rest. *)
Definition github : downloader :=
  λ fs dst uri,
    if Str.startswith "https://github.com/" uri then
      match getitem remote uri with
      | Ok data =>
          let p := dst ++ [Path.name (Path.of_string uri)] in
          (<[p := File data]> fs, Ok p)
      | Raise _ => (fs, Raise (ExternalError "404"))
      end
    else (fs, Raise NonMatchingURI).

Definition downloaders : list (string * downloader) := [("github", github)].

Definition fsspec_read (fs : FS) (uri : string) : string + fetch_error :=
  match getitem remote uri with
  | Ok data => inl data
  | Raise _ => inr (FetchFailed "404")
  end.

Definition fsspec_get (fs : FS) (uri : string) (dst : fspath)
  : FS * option fetch_error :=
  (fs, Some (FetchFailed "no such directory")).

Fixpoint first_free (fs : FS) (n fuel : nat) : nat :=
  match fuel with
  | O => n
  | S fuel' =>
      match fs !! ["tmp"; "tmp" +:+ pretty n] with
      | Some _ => first_free fs (S n) fuel'
      | None => n
      end
  end.

Definition mkdtemp (fs : FS) : fspath :=
  ["tmp"; "tmp" +:+ pretty (first_free fs 0 (size fs))].

(** Modelled from the spec: the sync engine
    ([belay.packagemanager.sync.sync], not among the sources).  It makes
    the destination mirror the source, entry for entry, and reports
    whether the filesystem changed; it does not fail. *)
Definition sync (fs : FS) (src dst : fspath) : FS * result bool :=
  let kept := filter (λ e, ¬ Fs.below dst e.1) fs in
  let fs' := foldr (λ e acc, <[dst ++ drop (length src) e.1 := e.2]> acc)
                   kept (Fs.rglob fs src) in
  (fs', Ok (bool_decide (fs' ≠ fs))).

Definition main : Pkg.Group :=
  Pkg.mkGroup
    (Pkg.mkGroupConfig "main" false
       [("good", DepStr "https://github.com/acme/lib/good.py");
        ("bad", DepStr "https://github.com/acme/lib/bad.py");
        ("plain", DepDict [("remote", "https://example.com/lib/plain.py")]);
        ("several", DepList ["https://example.com/lib/plain.py"])])
    ["deps"; "main"].

Definition download := Pkg.download ast_parses downloaders fsspec_read fsspec_get sync mkdtemp.
Definition download_package :=
  Pkg.download_package ast_parses downloaders fsspec_read fsspec_get sync mkdtemp.

Definition httpx_get (url : string) : result string :=
  match getitem remote url with
  | Ok data => Ok data
  | Raise _ => Raise (ExternalError "404")
  end.

Definition download_dependencies :=
  Legacy.download_dependencies py_urlparse httpx_get ast_parses.

Definition w0 : World := mkWorld ∅ [].

(** A group that declares [foo], [bar] and [baz], and the same group once
    [baz] has been taken out of the manifest. *)
Definition with_baz : Pkg.Group :=
  Pkg.mkGroup
    (Pkg.mkGroupConfig "main" false
       [("foo", DepStr "https://github.com/acme/lib/good.py");
        ("bar", DepStr "https://example.com/lib/plain.py");
        ("baz", DepStr "https://github.com/acme/lib/good.py")])
    ["deps"; "main"].

Definition without_baz : Pkg.Group :=
  Pkg.mkGroup
    (Pkg.mkGroupConfig "main" false
       [("foo", DepStr "https://github.com/acme/lib/good.py");
        ("bar", DepStr "https://example.com/lib/plain.py")])
    ["deps"; "main"].

(** The world after [with_baz] has been downloaded. *)
Definition downloaded : World := (download with_baz None false w0).1.

(** A world in which the folder of the group holds a directory and two
    plain files, one of them under a name that is not declared. *)
Definition stale : World :=
  mkWorld (list_to_map [(["deps"], Dir); (["deps"; "main"], Dir);
                        (["deps"; "main"; "foo"], Dir);
                        (["deps"; "main"; "bar"], File "x = (1)");
                        (["deps"; "main"; "baz"], File "y = 2")]) [].


End Demo.

(** Unfolds the operations of the monad. *)
Ltac unfold_M :=
  unfold mbind, M_bind, mret, M_ret, raise, emit, on_fs, of_result,
    try_except, finally, log in *.

(** * Theorems *)

(** ** Evaluation on concrete inputs *)

Example resolve_blob :
  Legacy._process_url py_urlparse "https://github.com/u/p/blob/b/path/to/file"
  = Ok "https://raw.githubusercontent.com/u/p/b/path/to/file".
Proof. vm_compute. reflexivity. Qed.

Example resolve_other :
  Legacy._process_url py_urlparse "https://example.com/u/p/blob/b/x.py?a=1#f"
  = Ok "https://example.com/u/p/blob/b/x.py?a=1#f".
Proof. vm_compute. reflexivity. Qed.

Example resolve_raw_query :
  Legacy._process_url py_urlparse "http://www.raw.githubusercontent.com/u/p/b/x.py?a=1#f"
  = Ok "https://raw.githubusercontent.com/u/p/b/x.py".
Proof. vm_compute. reflexivity. Qed.

(** ** The locator resolver *)

Section SplitJoin.

Variable sep : ascii.

Lemma split_nonempty s : Str.split sep s ≠ [].
Proof. induction s as [|c s IH]; simpl; [done|]. destruct (Ascii.eqb c sep); [done|]. by destruct (Str.split sep s). Qed.

Lemma split_no_sep w : Str.contains sep w = false → Str.split sep w = [w].
Proof.
  induction w as [|c w IH]; simpl; [done|].
  intros [Hc Hw]%orb_false_elim. rewrite Hc, (IH Hw). done.
Qed.

Lemma split_segment w s :
  Str.contains sep w = false →
  Str.split sep (w +:+ String sep s) = w :: Str.split sep s.
Proof.
  induction w as [|c w IH]; simpl.
  - intros _. by rewrite Ascii.eqb_refl.
  - intros [Hc Hw]%orb_false_elim. rewrite Hc, (IH Hw). done.
Qed.

Lemma split_join l :
  l ≠ [] → Forall (λ w, Str.contains sep w = false) l →
  Str.split sep (Str.join (String sep "") l) = l.
Proof.
  induction l as [|w l IH]; [done|]. intros _ Hall.
  apply Forall_cons in Hall as [Hw Hl].
  destruct l as [|w' l]; simpl.
  - by apply split_no_sep.
  - change (String sep "" +:+ ?s) with (String sep s).
    rewrite (split_segment _ _ Hw). f_equal. by apply IH.
Qed.

End SplitJoin.

Section ResolverFacts.

Variable urlparse : string → result ParseResult.

Lemma process_url_github_host url parsed x0 user project mode branch rest :
  urlparse url = Ok parsed →
  Legacy._strip_www (netloc parsed) = "github.com" →
  Str.split "/" (path parsed) = x0 :: user :: project :: mode :: branch :: rest →
  Legacy._process_url urlparse url
  = Ok ("https://raw.githubusercontent.com/" +:+ user +:+ "/" +:+ project
        +:+ "/" +:+ branch +:+ "/" +:+ Str.join "/" rest).
Proof.
  intros Hp Hn Hs. unfold Legacy._process_url, Legacy.try_parsers,
    Legacy._process_url_github. rewrite Hp. simpl. rewrite Hn, Hs. done.
Qed.

(** C2: a URL on github.com (a leading www. stripped) whose path is
    /user/project/mode/branch/...rest resolves to
    https://raw.githubusercontent.com/user/project/branch/...rest: the mode
    segment is dropped and the host replaced. *)
Theorem process_url_github_rewrites url parsed user project mode branch rest :
  urlparse url = Ok parsed →
  Legacy._strip_www (netloc parsed) = "github.com" →
  Forall (λ w, Str.contains "/" w = false) (user :: project :: mode :: branch :: rest) →
  path parsed = "/" +:+ Str.join "/" (user :: project :: mode :: branch :: rest) →
  Legacy._process_url urlparse url
  = Ok ("https://raw.githubusercontent.com/" +:+ user +:+ "/" +:+ project
        +:+ "/" +:+ branch +:+ "/" +:+ Str.join "/" rest).
Proof.
  intros Hp Hn Hall Hpath.
  apply (process_url_github_host url parsed "" user project mode branch rest Hp Hn).
  rewrite Hpath.
  change ("/" +:+ ?s) with ("" +:+ String "/" s).
  rewrite split_segment by done. f_equal. by apply split_join.
Qed.

(** C5, as amended: a locator that [urlparse] parses and whose host (a
    leading www. stripped) is neither github.com nor
    raw.githubusercontent.com is returned exactly as given, and nothing is
    raised. *)
Theorem process_url_other_host_unchanged url parsed :
  urlparse url = Ok parsed →
  Legacy._strip_www (netloc parsed) ≠ "github.com" →
  Legacy._strip_www (netloc parsed) ≠ "raw.githubusercontent.com" →
  Legacy._process_url urlparse url = Ok url.
Proof.
  intros Hp Hg Hr. unfold Legacy._process_url, Legacy.try_parsers,
    Legacy._process_url_github. rewrite Hp. simpl.
  apply String.eqb_neq in Hg, Hr. rewrite Hg, Hr. done.
Qed.

(** C6, as amended: a URL whose host (a leading www. stripped) is
    raw.githubusercontent.com resolves to https://raw.githubusercontent.com
    followed by the path of the input, unchanged; nothing else of the
    input is kept. *)
Theorem process_url_raw_host url parsed :
  urlparse url = Ok parsed →
  Legacy._strip_www (netloc parsed) = "raw.githubusercontent.com" →
  Legacy._process_url urlparse url
  = Ok ("https://raw.githubusercontent.com" +:+ path parsed).
Proof.
  intros Hp Hn. unfold Legacy._process_url, Legacy.try_parsers,
    Legacy._process_url_github. rewrite Hp. simpl. rewrite Hn. done.
Qed.

End ResolverFacts.

Lemma process_url_github_rewrites_witness :
  Legacy._process_url py_urlparse "https://www.github.com/u/p/blob/b/path/to/file.py"
  = Ok "https://raw.githubusercontent.com/u/p/b/path/to/file.py".
Proof.
  apply (process_url_github_rewrites py_urlparse _
           (mkParseResult "https" "www.github.com" "/u/p/blob/b/path/to/file.py" "" "" "")
           "u" "p" "blob" "b" ["path"; "to"; "file.py"]).
  - vm_compute. reflexivity.
  - vm_compute. reflexivity.
  - repeat constructor.
  - reflexivity.
Defined.

Lemma process_url_other_host_unchanged_witness :
  Legacy._process_url py_urlparse "https://gitlab.com/u/p/-/raw/main/x.py?inline=false"
  = Ok "https://gitlab.com/u/p/-/raw/main/x.py?inline=false".
Proof.
  apply (process_url_other_host_unchanged py_urlparse _
           (mkParseResult "https" "gitlab.com" "/u/p/-/raw/main/x.py" "" "inline=false" "")).
  - vm_compute. reflexivity.
  - vm_compute. discriminate.
  - vm_compute. discriminate.
Defined.

(** C5, as stated, fails: [urlparse] rejects this locator (the bracket in
    its host is not closed), so it has no host that is github.com or the
    raw-content host; yet the resolver does not return it: the ValueError
    of [urlparse] is not caught and leaves the resolver. *)
Lemma process_url_other_host_may_raise :
  Legacy._process_url py_urlparse "https://[example.com/lib/x.py"
  = Raise (ValueError "Invalid IPv6 URL")
  ∧ ¬ (∀ url,
         (∀ parsed, py_urlparse url = Ok parsed →
                    Legacy._strip_www (netloc parsed) ≠ "github.com"
                    ∧ Legacy._strip_www (netloc parsed) ≠ "raw.githubusercontent.com") →
         Legacy._process_url py_urlparse url = Ok url).
Proof.
  assert (Legacy._process_url py_urlparse "https://[example.com/lib/x.py"
          = Raise (ValueError "Invalid IPv6 URL")) as Hr by (vm_compute; reflexivity).
  split; [done|]. intros H.
  specialize (H "https://[example.com/lib/x.py"). rewrite Hr in H.
  assert (py_urlparse "https://[example.com/lib/x.py" = Raise (ValueError "Invalid IPv6 URL"))
    as Hp by (vm_compute; reflexivity).
  rewrite Hp in H. discriminate H. intros parsed [=].
Qed.

Lemma process_url_raw_host_witness :
  Legacy._process_url py_urlparse "http://www.raw.githubusercontent.com/u/p/b/x.py?token=abc#L3"
  = Ok "https://raw.githubusercontent.com/u/p/b/x.py".
Proof.
  apply (process_url_raw_host py_urlparse _
           (mkParseResult "http" "www.raw.githubusercontent.com" "/u/p/b/x.py" "" "token=abc" "L3")).
  - vm_compute. reflexivity.
  - vm_compute. reflexivity.
Defined.

(** C6, as stated, fails: the host of this URL is already the raw-content
    host, written as the resolver writes it, yet the URL is not returned
    as it came: its query string is lost. *)
Lemma process_url_raw_not_identity :
  ¬ (∀ url parsed,
       py_urlparse url = Ok parsed →
       netloc parsed = "raw.githubusercontent.com" →
       Legacy._process_url py_urlparse url = Ok url).
Proof.
  intros H.
  specialize (H "https://raw.githubusercontent.com/u/p/b/x.py?token=abc"
                (mkParseResult "https" "raw.githubusercontent.com" "/u/p/b/x.py" "" "token=abc" "")).
  assert (Hr : Legacy._process_url py_urlparse "https://raw.githubusercontent.com/u/p/b/x.py?token=abc"
               = Ok "https://raw.githubusercontent.com/u/p/b/x.py") by (vm_compute; reflexivity).
  rewrite Hr in H. specialize (H eq_refl eq_refl). discriminate H.
Qed.


Example demo_good :
  Demo.download Demo.main (Some ["good"; "plain"]) true Demo.w0
  = (mkWorld (list_to_map
       [(["deps"], Dir); (["deps"; "main"], Dir);
        (["deps"; "main"; "good"], Dir);
        (["deps"; "main"; "good"; "good.py"], File "def f(): return (1)");
        (["deps"; "main"; "plain"], Dir);
        (["deps"; "main"; "plain"; "plain.py"], File "x = (1)")])
       [ConsoleLog "good: Updating...";
        CallDownloader "github" ["tmp"; "tmp0"] "https://github.com/acme/lib/good.py";
        CallSync ["tmp"; "tmp0"] ["deps"; "main"; "good"];
        ConsoleLog "[bold green]good: Updated.";
        ConsoleLog "plain: Updating...";
        CallDownloader "github" ["tmp"; "tmp0"] "https://example.com/lib/plain.py";
        CallGeneric ["tmp"; "tmp0"] "https://example.com/lib/plain.py";
        CallSync ["tmp"; "tmp0"] ["deps"; "main"; "plain"];
        ConsoleLog "[bold green]plain: Updated."],
     Ok tt).
Proof. vm_compute. reflexivity. Qed.

(** ** The filesystem operations *)

Lemma mkdir_from_lookup rest : ∀ fs base fs' r q,
  Fs.mkdir_from fs base rest = (fs', r) →
  fs' !! q = fs !! q
  ∨ (fs !! q = None ∧ fs' !! q = Some Dir ∧ q `prefix_of` base ++ rest).
Proof.
  induction rest as [|c rest IH]; intros fs base fs' r q; simpl.
  - intros [= <- _]. by left.
  - destruct (fs !! (base ++ [c])) as [[code|]|] eqn:Hp.
    + intros [= <- _]. by left.
    + intros H. destruct (IH _ _ _ _ q H) as [?|(?&?&?)]; [by left|right].
      by rewrite <- (assoc_L (++)) in *.
    + intros H. destruct (IH _ _ _ _ q H) as [Hq|(Hq1&Hq2&Hq3)].
      * destruct (decide (q = base ++ [c])) as [->|Hne].
        -- right. rewrite Hq, lookup_insert_eq. split_and!; [done..|].
           change (c :: rest) with ([c] ++ rest). rewrite (assoc_L (++)).
           by apply prefix_app_r.
        -- left. by rewrite Hq, lookup_insert_ne.
      * right. rewrite <- (assoc_L (++)) in Hq3.
        destruct (decide (q = base ++ [c])) as [->|Hne].
        -- by rewrite lookup_insert_eq in Hq1.
        -- by rewrite lookup_insert_ne in Hq1.
Qed.

Lemma mkdir_from_ok rest : ∀ fs base fs',
  Fs.mkdir_from fs base rest = (fs', Ok tt) → rest ≠ [] →
  fs' !! (base ++ rest) = Some Dir.
Proof.
  induction rest as [|c rest IH]; intros fs base fs'; [done|]. simpl. intros H _.
  assert (∀ fs1, fs1 !! (base ++ [c]) = Some Dir →
                 Fs.mkdir_from fs1 (base ++ [c]) rest = (fs', Ok tt) →
                 fs' !! (base ++ c :: rest) = Some Dir) as Hstep.
  { intros fs1 H1 H2. destruct rest as [|c' rest].
    - simpl in H2. by injection H2 as <-.
    - change (c :: c' :: rest) with ([c] ++ c' :: rest). rewrite (assoc_L (++)).
      by eapply IH. }
  destruct (fs !! (base ++ [c])) as [[code|]|] eqn:Hp; [done| |].
  - by eapply Hstep.
  - eapply Hstep; [|done]. apply lookup_insert_eq.
Qed.

Lemma mkdir_parents_below fs p fs' r q :
  Fs.mkdir_parents fs p = (fs', r) → Fs.below p q → fs' !! q = fs !! q.
Proof.
  intros H [Hpre Hne]. destruct (mkdir_from_lookup _ _ _ _ _ q H) as [|(_&_&Hq)]; [done|].
  simpl in Hq. destruct Hne. by apply (anti_symm prefix).
Qed.


Lemma mkdir_parents_is_dir fs p fs' :
  Fs.mkdir_parents fs p = (fs', Ok tt) → Fs.is_dir fs' p = true.
Proof.
  intros H. destruct p as [|c p]; [done|].
  apply mkdir_from_ok in H; [|done]. simpl in H. unfold Fs.is_dir. by rewrite H.
Qed.

Lemma is_dir_ext fs fs' p :
  fs' !! p = fs !! p → Fs.is_dir fs' p = Fs.is_dir fs p.
Proof. unfold Fs.is_dir. destruct p; [done|]. by intros ->. Qed.

Lemma rmtree_lookup fs d q :
  ¬ d `prefix_of` q → Fs.rmtree fs d !! q = fs !! q.
Proof.
  intros Hq. unfold Fs.rmtree. destruct (fs !! q) as [n|] eqn:E.
  - by apply map_lookup_filter_Some.
  - apply map_lookup_filter_None. by left.
Qed.

Lemma write_lookup fs p data fs' r q :
  Fs.write fs p data = (fs', r) → q ≠ p → fs' !! q = fs !! q.
Proof.
  unfold Fs.write. intros H Hq. destruct p as [|c p]; [by injection H as <-|].
  destruct (Fs.is_dir fs _); [|by injection H as <-].
  destruct (fs !! (c :: p)) as [[code|]|]; injection H as <- _;
    by rewrite ?lookup_insert_ne.
Qed.

Lemma tree_eq fs fs' d :
  (∀ q, Fs.below d q → fs' !! q = fs !! q) → Fs.tree fs' d = Fs.tree fs d.
Proof.
  intros H. apply map_eq. intros q. unfold Fs.tree.
  rewrite !map_lookup_filter. destruct (decide (Fs.below d q)) as [Hq|Hq].
  - by rewrite (H q Hq).
  - destruct (fs' !! q), (fs !! q); simpl; by rewrite ?option_guard_False.
Qed.

Lemma split_components s : Forall (λ w, Str.contains "/" w = false) (Str.split "/" s).
Proof.
  induction s as [|c s IH]; simpl; [by repeat constructor|].
  destruct (Ascii.eqb c "/") eqn:Hc; [by constructor|].
  destruct (Str.split "/" s) as [|w ws]; inversion IH; subst.
  - repeat constructor. simpl. by rewrite Hc.
  - constructor; [|done]. simpl. by rewrite Hc.
Qed.

Lemma name_of_string_relative s :
  Str.startswith "/" (Path.name (Path.of_string s)) = false.
Proof.
  assert (Forall (λ w, Str.contains "/" w = false) (Path.of_string s)) as H.
  { unfold Path.of_string. apply Forall_forall. intros w [_ Hw]%list_elem_of_filter.
    revert w Hw. apply Forall_forall, split_components. }
  unfold Path.name. generalize (Path.of_string s) H. clear. intros l H.
  induction H as [|w l Hw Hl IH]; [done|].
  destruct l as [|w' l]; [|exact IH].
  destruct w as [|c w]; [done|]. simpl in Hw.
  apply orb_false_elim in Hw as [Hc _].
  change (match ascii_dec "/" c with
          | left _ => String.prefix "" w
          | right _ => false
          end = false).
  destruct (ascii_dec "/" c) as [<-|]; [by rewrite Ascii.eqb_refl in Hc|done].
Qed.

Lemma div_name_prefix dst s :
  dst `prefix_of` Path.div dst (Path.name (Path.of_string s)).
Proof.
  unfold Path.div. rewrite name_of_string_relative. by apply prefix_app_r.
Qed.

(** ** Downloader dispatch *)


Section Dispatch.

Variable downloaders : list (string * downloader).
Variable fsspec_read : FS → string → string + fetch_error.
Variable fsspec_get : FS → string → fspath → FS * option fetch_error.

Local Abbreviation _download_generic := (Pkg._download_generic fsspec_read fsspec_get).
Local Abbreviation try_downloaders := (Pkg.try_downloaders fsspec_read fsspec_get).
Local Abbreviation download_uri := (Pkg.download_uri downloaders fsspec_read fsspec_get).

Lemma call_downloader_trace p dst uri w w' r :
  Pkg.call_downloader p dst uri w = (w', r) →
  trace w' = trace w ++ [CallDownloader p.1 dst uri].
Proof.
  unfold Pkg.call_downloader. unfold_M. simpl.
  destruct (p.2 (fs w) dst uri). by intros [= <- _].
Qed.

Lemma download_generic_trace dst uri w :
  trace (_download_generic dst uri w).1 = trace w ++ [CallGeneric dst uri].
Proof.
  unfold Pkg._download_generic, Pkg._download_generic_directory. unfold_M. simpl.
  destruct (fsspec_read (fs w) uri) as [data|[|msg]]; simpl.
  - destruct (Fs.write _ _ _) as [fs' [[]|e]]; simpl; [done|].
    destruct e; simpl; try done. by destruct (fsspec_get _ _ _).
  - by destruct (fsspec_get _ _ _).
  - done.
Qed.

Lemma download_generic_never_declines dst uri w :
  (_download_generic dst uri w).2 ≠ Raise NonMatchingURI.
Proof.
  unfold Pkg._download_generic, Pkg._download_generic_directory. unfold_M. simpl.
  destruct (fsspec_read (fs w) uri) as [data|[|msg]]; simpl.
  - destruct (Fs.write _ _ _) as [fs' [[]|e]] eqn:Hw; simpl; [done|].
    assert (e ≠ NonMatchingURI) as He.
    { unfold Fs.write in Hw. repeat case_match; simplify_eq; done. }
    destruct e; simpl; try done.
    destruct (fsspec_get _ _ _) as [fs'' [[]|]]; done.
  - destruct (fsspec_get _ _ _) as [fs'' [[]|]]; done.
  - done.
Qed.

Lemma all_decline_trace ps dst uri : ∀ w w1,
  Pkg.all_decline ps dst uri w = Some w1 →
  trace w1 = trace w ++ Pkg.calls ps dst uri.
Proof.
  induction ps as [|p ps IH]; intros w w1; simpl.
  - intros [= <-]. by rewrite app_nil_r.
  - destruct (Pkg.call_downloader p dst uri w) as [w' [a|e]] eqn:Hp; [done|].
    destruct e; try done. intros H%IH.
    rewrite H, (call_downloader_trace _ _ _ _ _ _ Hp), <- (assoc_L (++)). done.
Qed.

Lemma try_downloaders_skip pre rest dst uri : ∀ w w1,
  Pkg.all_decline pre dst uri w = Some w1 →
  try_downloaders (pre ++ rest) dst uri w = try_downloaders rest dst uri w1.
Proof.
  induction pre as [|p pre IH]; intros w w1; simpl.
  - by intros [= <-].
  - unfold try_except.
    destruct (Pkg.call_downloader p dst uri w) as [w' [a|e]]; [done|].
    destruct e; try done. rewrite decide_True by done. apply IH.
Qed.

Lemma try_downloaders_claimed p post dst uri w w' r :
  Pkg.call_downloader p dst uri w = (w', r) →
  r ≠ Raise NonMatchingURI →
  try_downloaders (p :: post) dst uri w = (w', r).
Proof.
  intros Hp Hr. simpl. unfold try_except. rewrite Hp.
  destruct r as [a|e]; [done|]. rewrite decide_False; [done|]. congruence.
Qed.

(** Either every downloader of [ps] declines, or the run stops at one that
    does not, with only calls to registered downloaders on the trace. *)
Lemma try_downloaders_cases ps dst uri : ∀ w,
  is_Some (Pkg.all_decline ps dst uri w)
  ∨ (Pkg.all_decline ps dst uri w = None
     ∧ ∃ called, trace (try_downloaders ps dst uri w).1
                 = trace w ++ Pkg.calls called dst uri).
Proof.
  induction ps as [|p ps IH]; intros w; [by left|]. simpl. unfold try_except.
  destruct (Pkg.call_downloader p dst uri w) as [w' r] eqn:Hp.
  pose proof (call_downloader_trace _ _ _ _ _ _ Hp) as Ht.
  destruct r as [a|e].
  { right. split; [done|]. exists [p]. done. }
  destruct (decide (e = NonMatchingURI)) as [->|He].
  - destruct (IH w') as [?|[Hn [called Hc]]]; [by left|right].
    split; [done|]. exists (p :: called).
    rewrite Hc, Ht, <- (assoc_L (++)). done.
  - right. split; [by destruct e|]. exists [p]. done.
Qed.

(** C3: dispatch calls the registered downloaders in registration order
    and returns what the first one that does not decline returns; the
    generic downloader runs exactly when all of them decline (so also when
    none is registered), on the world they leave; and the generic
    downloader never declines. *)
Theorem download_uri_dispatch dst uri w :
  (∀ pre p post w1 w2 r,
     downloaders = pre ++ p :: post →
     Pkg.all_decline pre dst uri w = Some w1 →
     Pkg.call_downloader p dst uri w1 = (w2, r) →
     r ≠ Raise NonMatchingURI →
     download_uri dst uri w = (w2, r)
     ∧ trace w2 = trace w ++ Pkg.calls (pre ++ [p]) dst uri)
  ∧ (∀ w1,
       Pkg.all_decline downloaders dst uri w = Some w1 →
       download_uri dst uri w = _download_generic dst uri w1
       ∧ trace (download_uri dst uri w).1
         = trace w ++ Pkg.calls downloaders dst uri ++ [CallGeneric dst uri])
  ∧ (CallGeneric dst uri ∈ drop (length (trace w)) (trace (download_uri dst uri w).1)
     ↔ is_Some (Pkg.all_decline downloaders dst uri w))
  ∧ (downloaders = [] → download_uri dst uri w = _download_generic dst uri w)
  ∧ (∀ w0, (_download_generic dst uri w0).2 ≠ Raise NonMatchingURI).
Proof.
  unfold Pkg.download_uri.
  assert (∀ w1, Pkg.all_decline downloaders dst uri w = Some w1 →
            try_downloaders downloaders dst uri w = _download_generic dst uri w1
            ∧ trace (try_downloaders downloaders dst uri w).1
              = trace w ++ Pkg.calls downloaders dst uri ++ [CallGeneric dst uri])
    as Hall.
  { intros w1 H1.
    pose proof (try_downloaders_skip downloaders [] dst uri w w1 H1) as H2.
    rewrite app_nil_r in H2. simpl in H2. split; [done|].
    rewrite H2, download_generic_trace, (all_decline_trace _ _ _ _ _ H1).
    by rewrite <- (assoc_L (++)). }
  split_and!.
  - intros pre p post w1 w2 r -> Hpre Hp Hr. split.
    + rewrite (try_downloaders_skip _ _ _ _ _ _ Hpre).
      by apply try_downloaders_claimed.
    + pose proof (all_decline_trace _ _ _ _ _ Hpre) as Ht.
      unfold Pkg.calls in *. rewrite fmap_app, (assoc_L (++)), <- Ht.
      by apply call_downloader_trace in Hp.
  - exact Hall.
  - split.
    + intros Hin.
      destruct (try_downloaders_cases downloaders dst uri w) as [|[_ [called Hc]]]; [done|].
      rewrite Hc, drop_app_length in Hin.
      apply list_elem_of_fmap in Hin as (p & Hp & _). done.
    + intros [w1 H1]. destruct (Hall w1 H1) as [_ ->].
      rewrite drop_app_length. apply elem_of_app. right.
      by apply list_elem_of_singleton.
  - intros ->. done.
  - apply download_generic_never_declines.
Qed.

End Dispatch.

(** ** The group orchestrator *)

Lemma apart_below (tmp_dir local_folder q : fspath) :
  ¬ tmp_dir `prefix_of` local_folder → ¬ local_folder `prefix_of` tmp_dir →
  local_folder `prefix_of` q → ¬ tmp_dir `prefix_of` q.
Proof.
  intros H1 H2 Hq Ht. destruct (prefix_weak_total _ _ _ Ht Hq); tauto.
Qed.

Lemma for_each_abort {A} (body : A → M unit) pre x post w0 w w' e :
  for_each pre body w0 = (w, Ok tt) →
  body x w = (w', Raise e) →
  for_each (pre ++ x :: post) body w0 = (w', Raise e).
Proof.
  revert w0. induction pre as [|y pre IH]; intros w0; simpl; unfold_M.
  - intros [= <-] ->. done.
  - destruct (body y w0) as [w1 [[]|e1]]; [|done]. apply IH.
Qed.

Section Orchestrator.

Variable ast_parses : string → bool.
Variable downloaders : list (string * downloader).
Variable fsspec_read : FS → string → string + fetch_error.
Variable fsspec_get : FS → string → fspath → FS * option fetch_error.
Variable sync : FS → fspath → fspath → FS * result bool.
Variable mkdtemp : FS → fspath.

Local Abbreviation _download_generic := (Pkg._download_generic fsspec_read fsspec_get).
Local Abbreviation try_downloaders := (Pkg.try_downloaders fsspec_read fsspec_get).
Local Abbreviation download_uri := (Pkg.download_uri downloaders fsspec_read fsspec_get).
Local Abbreviation _verify_files := (Pkg._verify_files ast_parses).
Local Abbreviation fetch := (Pkg.fetch downloaders fsspec_read fsspec_get).
Local Abbreviation stage := (Pkg.stage downloaders fsspec_read fsspec_get mkdtemp).
Local Abbreviation download_package :=
  (Pkg.download_package ast_parses downloaders fsspec_read fsspec_get sync mkdtemp).
Local Abbreviation download :=
  (Pkg.download ast_parses downloaders fsspec_read fsspec_get sync mkdtemp).

Local Abbreviation fsspec_get_within := (Pkg.fsspec_get_within fsspec_get).
Local Abbreviation downloads_within := (Pkg.downloads_within downloaders fsspec_get).
Local Abbreviation sync_fails_clean := (Pkg.sync_fails_clean sync).
Local Abbreviation tmp_apart := (Pkg.tmp_apart mkdtemp).

Lemma download_generic_frame dst uri w q :
  fsspec_get_within → ¬ dst `prefix_of` q →
  fs (_download_generic dst uri w).1 !! q = fs w !! q.
Proof.
  intros Hget Hq.
  unfold Pkg._download_generic, Pkg._download_generic_directory. unfold_M. simpl.
  set (dst' := Path.div dst (Path.name (Path.of_string uri))).
  assert (¬ dst' `prefix_of` q) as Hq'.
  { intros H. apply Hq. etrans; [apply div_name_prefix|done]. }
  destruct (fsspec_read (fs w) uri) as [data|[|msg]]; simpl; [| |done].
  - destruct (Fs.write _ _ _) as [fs' [[]|e]] eqn:Hw; simpl.
    + eapply write_lookup; [done|]. by intros ->.
    + destruct e; try done. specialize (Hget (fs w) uri dst' q Hq').
      by destruct (fsspec_get _ _ _).
  - specialize (Hget (fs w) uri dst q Hq). by destruct (fsspec_get _ _ _).
Qed.

Lemma call_downloader_frame p dst uri w q :
  writes_within p.2 → ¬ dst `prefix_of` q →
  fs (Pkg.call_downloader p dst uri w).1 !! q = fs w !! q.
Proof.
  intros Hp Hq. unfold Pkg.call_downloader. unfold_M. simpl.
  specialize (Hp (fs w) dst uri q Hq). by destruct (p.2 _ _ _).
Qed.

Lemma try_downloaders_frame ps dst uri q :
  (∀ p, p ∈ ps → writes_within p.2) → fsspec_get_within →
  ¬ dst `prefix_of` q →
  ∀ w, fs (try_downloaders ps dst uri w).1 !! q = fs w !! q.
Proof.
  intros Hps Hget Hq. induction ps as [|p ps IH]; intros w; simpl.
  - by apply download_generic_frame.
  - unfold try_except.
    assert (writes_within p.2) as Hp by (apply Hps; left).
    pose proof (call_downloader_frame p dst uri w q Hp Hq) as Hc.
    destruct (Pkg.call_downloader p dst uri w) as [w' [a|e]]; [done|].
    case_decide; [|done]. rewrite IH; [done|]. intros p' Hp'. apply Hps. by right.
Qed.

Lemma download_uri_frame dst uri w q :
  downloads_within → ¬ dst `prefix_of` q →
  fs (download_uri dst uri w).1 !! q = fs w !! q.
Proof. intros [H1 H2] Hq. by apply try_downloaders_frame. Qed.

Lemma download_uri_trace dst uri w :
  ∃ new, trace (download_uri dst uri w).1 = trace w ++ new
         ∧ ∀ src dst', CallSync src dst' ∉ new.
Proof.
  unfold Pkg.download_uri.
  destruct (try_downloaders_cases fsspec_read fsspec_get downloaders dst uri w)
    as [[w1 H1]|[_ [called Hc]]].
  - pose proof (try_downloaders_skip fsspec_read fsspec_get downloaders [] dst uri w w1 H1) as H2.
    rewrite app_nil_r in H2. simpl in H2.
    exists (Pkg.calls downloaders dst uri ++ [CallGeneric dst uri]). split.
    + rewrite H2, download_generic_trace, (all_decline_trace _ _ _ _ _ H1).
      by rewrite <- (assoc_L (++)).
    + intros src dst' [Hin|Hin%list_elem_of_singleton]%elem_of_app; [|done].
      apply list_elem_of_fmap in Hin as (p & Hp & _). done.
  - exists (Pkg.calls called dst uri). split; [done|].
    intros src dst' Hin. apply list_elem_of_fmap in Hin as (p & Hp & _). done.
Qed.

Lemma fetch_frame dep_src tmp_dir w q :
  downloads_within → ¬ tmp_dir `prefix_of` q →
  fs (fetch dep_src tmp_dir w).1 !! q = fs w !! q.
Proof.
  intros Hd Hq. unfold Pkg.fetch. unfold_M.
  destruct (getitem dep_src "remote"); [|done]. by apply download_uri_frame.
Qed.

Lemma fetch_trace dep_src tmp_dir w :
  ∃ new, trace (fetch dep_src tmp_dir w).1 = trace w ++ new
         ∧ ∀ src dst, CallSync src dst ∉ new.
Proof.
  unfold Pkg.fetch. unfold_M.
  destruct (getitem dep_src "remote"); [apply download_uri_trace|].
  exists []. split; [by rewrite app_nil_r|]. intros ??. apply not_elem_of_nil.
Qed.




(** What [prepare] does, case by case. *)
Lemma prepare_unfold self console package_name w :
  Pkg.prepare self console package_name w =
  let local_folder := Path.div (Pkg.folder self) package_name in
  let '(fs1, r) := Fs.mkdir_parents (fs w) local_folder in
  let w1 := mkWorld fs1 (trace w) in
  match r with
  | Raise e => (w1, Raise e)
  | Ok _ =>
      let started :=
        mkWorld fs1 (trace w ++ if console
                                then [ConsoleLog (package_name +:+ ": Updating...")]
                                else []) in
      match getitem (Pkg.dependencies (Pkg.config self)) package_name with
      | Raise e => (w1, Raise e)
      | Ok (DepStr s) => (started, Ok [("remote", s)])
      | Ok (DepList _) =>
          (w1, Raise (NotImplementedError "List dependencies not yet supported."))
      | Ok (DepDict d) => (started, Ok d)
      | Ok DepOther =>
          (w1, Raise (NotImplementedError "Dictionary dependencies not yet supported."))
      end
  end.
Proof.
  unfold Pkg.prepare. unfold_M. simpl.
  destruct (Fs.mkdir_parents _ _) as [fs1 [[]|e]]; [|done].
  destruct (getitem _ _) as [[s|l|d|]|e]; simpl; try done;
    destruct console; simpl; by rewrite ?app_nil_r.
Qed.

(** What [download_package] does, stage by stage. *)
Lemma download_package_unfold self console package_name w :
  download_package self console package_name w =
  let local_folder := Path.div (Pkg.folder self) package_name in
  match Pkg.prepare self console package_name w with
  | (w1, Raise e) => (w1, Raise e)
  | (w1, Ok dep_src) =>
      let tmp_dir := mkdtemp (fs w1) in
      match fetch dep_src tmp_dir (mkWorld (<[tmp_dir := Dir]> (fs w1)) (trace w1)) with
      | (w2, Raise e) => (Pkg.leave_tmp tmp_dir w2, Raise e)
      | (w2, Ok _) =>
          match _verify_files tmp_dir w2 with
          | (w3, Raise e) => (Pkg.leave_tmp tmp_dir w3, Raise e)
          | (w3, Ok _) =>
              match Pkg.call_sync sync tmp_dir local_folder w3 with
              | (w4, Raise e) => (Pkg.leave_tmp tmp_dir w4, Raise e)
              | (w4, Ok changed) =>
                  log console
                    (if changed
                     then "[bold green]" +:+ package_name +:+ ": Updated."
                     else package_name +:+ ": No changes detected.")
                    (Pkg.leave_tmp tmp_dir w4)
              end
          end
      end
  end.
Proof.
  unfold Pkg.download_package, Pkg.TemporaryDirectory, Pkg.enter_tmp.
  unfold mbind, M_bind, finally. simpl.
  destruct (Pkg.prepare _ _ _ _) as [w1 [dep_src|e]]; [|done].
  destruct (fetch _ _ _) as [w2 [a|e]]; [|done].
  unfold Pkg._verify_files.
  destruct (Pkg.verify_all _ _) as [[]|e]; [|done].
  destruct (Pkg.call_sync _ _ _ _) as [w4 [[]|e]]; done.
Qed.

Lemma download_nonempty self console pre package_name rest :
  download self (Some (pre ++ package_name :: rest)) console
  = for_each (pre ++ package_name :: rest) (download_package self console).
Proof. unfold Pkg.download. by destruct pre. Qed.

Lemma download_aborts self console pre package_name rest w0 w w' e :
  for_each pre (download_package self console) w0 = (w, Ok tt) →
  download_package self console package_name w = (w', Raise e) →
  download self (Some (pre ++ package_name :: rest)) console w0 = (w', Raise e).
Proof.
  intros Hpre Hfail. rewrite download_nonempty. by eapply for_each_abort.
Qed.

(** C4, as amended: the failure of one package ends the group download.
    The exception reaches the caller, and the world is the one the failing
    package left: the packages before it have been processed, none of the
    packages after it is. *)
Theorem download_stops_at_first_failure self console pre package_name rest w0 w w' e :
  for_each pre (download_package self console) w0 = (w, Ok tt) →
  download_package self console package_name w = (w', Raise e) →
  download self (Some (pre ++ package_name :: rest)) console w0 = (w', Raise e).
Proof. apply download_aborts. Qed.

(** A package declared with a list makes the group download raise when
    its turn comes, and between the start of its turn and the raise nothing
    is recorded on the trace.  The error is the one for list declarations
    whenever the destination folder could be made. *)
Lemma list_declaration_fails_before_fetch self console pre package_name rest l w0 w :
  getitem (Pkg.dependencies (Pkg.config self)) package_name = Ok (DepList l) →
  for_each pre (download_package self console) w0 = (w, Ok tt) →
  ∃ w' e,
    download self (Some (pre ++ package_name :: rest)) console w0 = (w', Raise e)
    ∧ trace w' = trace w
    ∧ ((Fs.mkdir_parents (fs w) (Path.div (Pkg.folder self) package_name)).2 = Ok tt →
       e = NotImplementedError "List dependencies not yet supported.").
Proof.
  intros Hdep Hpre.
  pose proof (download_package_unfold self console package_name w) as Hpkg.
  rewrite prepare_unfold, Hdep in Hpkg. simpl in Hpkg.
  destruct (Fs.mkdir_parents _ _) as [fs1 [[]|e]] eqn:Hmk; simpl in Hpkg.
  - eexists _, _. split_and!.
    + eapply download_aborts; done.
    + done.
    + done.
  - eexists _, _. split_and!.
    + eapply download_aborts; done.
    + done.
    + done.
Qed.

(** C8, as amended: when the package a group download starts with is
    declared with a list, and its destination folder can be made, the
    download raises the error for list declarations with the trace as it
    was at the call: no downloader, registered or generic, has been
    called.  The world differs from the one at the call by the folder
    alone. *)
Theorem list_declaration_first_raises self console package_name rest l w fs1 :
  getitem (Pkg.dependencies (Pkg.config self)) package_name = Ok (DepList l) →
  Fs.mkdir_parents (fs w) (Path.div (Pkg.folder self) package_name) = (fs1, Ok tt) →
  download self (Some (package_name :: rest)) console w
  = (mkWorld fs1 (trace w),
     Raise (NotImplementedError "List dependencies not yet supported.")).
Proof.
  intros Hdep Hmk.
  apply (download_aborts self console [] package_name rest w w); [done|].
  rewrite download_package_unfold, prepare_unfold. cbv zeta. by rewrite Hmk, Hdep.
Qed.


(** Once the destination folder has been made, a failure at any later
    stage leaves it a directory that holds what it held before. *)
Lemma failed_package_keeps_folder self console package_name w fs1 w' e :
  let local_folder := Path.div (Pkg.folder self) package_name in
  downloads_within →
  sync_fails_clean →
  tmp_apart local_folder →
  Fs.mkdir_parents (fs w) local_folder = (fs1, Ok tt) →
  download_package self console package_name w = (w', Raise e) →
  Fs.is_dir (fs w') local_folder = true
  ∧ Fs.tree (fs w') local_folder = Fs.tree (fs w) local_folder.
Proof.
  intros local_folder Hwithin Hsync Hapart Hmk Hpkg.
  assert (∀ q, local_folder `prefix_of` q → fs w' !! q = fs1 !! q) as Hframe.
  { intros q Hq. rewrite download_package_unfold, prepare_unfold in Hpkg.
    cbv zeta in Hpkg. fold local_folder in Hpkg. rewrite Hmk in Hpkg.
    cbv beta iota zeta in Hpkg.
    assert (∀ dep_src t,
      match fetch dep_src (mkdtemp fs1) (mkWorld (<[mkdtemp fs1 := Dir]> fs1) t) with
      | (w2, Raise e) => (Pkg.leave_tmp (mkdtemp fs1) w2, Raise e)
      | (w2, Ok _) =>
          match _verify_files (mkdtemp fs1) w2 with
          | (w3, Raise e) => (Pkg.leave_tmp (mkdtemp fs1) w3, Raise e)
          | (w3, Ok _) =>
              match Pkg.call_sync sync (mkdtemp fs1) local_folder w3 with
              | (w4, Raise e) => (Pkg.leave_tmp (mkdtemp fs1) w4, Raise e)
              | (w4, Ok changed) =>
                  log console
                    (if changed
                     then "[bold green]" +:+ package_name +:+ ": Updated."
                     else package_name +:+ ": No changes detected.")
                    (Pkg.leave_tmp (mkdtemp fs1) w4)
              end
          end
      end = (w', Raise e) → fs w' !! q = fs1 !! q) as Hrest.
    { intros dep_src t Hrun. destruct (Hapart fs1) as [Ha1 Ha2].
      pose proof (apart_below _ _ _ Ha1 Ha2 Hq) as Hout.
      pose proof (fetch_frame dep_src (mkdtemp fs1)
                    (mkWorld (<[mkdtemp fs1 := Dir]> fs1) t) q Hwithin Hout) as Hf.
      simpl in Hf. rewrite lookup_insert_ne in Hf
        by (intros Heq; apply Ha2; by rewrite Heq).
      destruct (fetch _ _ _) as [w2 [a|e2]].
      2:{ injection Hrun as <- _. simpl in *. by rewrite rmtree_lookup. }
      unfold Pkg._verify_files in Hrun.
      destruct (Pkg.verify_all _ _) as [[]|e3].
      2:{ injection Hrun as <- _. simpl in *. by rewrite rmtree_lookup. }
      unfold Pkg.call_sync in Hrun. unfold_M. simpl in *.
      destruct (sync (fs w2) (mkdtemp fs1) local_folder) as [fs4 [changed|e4]] eqn:Hsy.
      - by destruct console.
      - injection Hrun as <- _. simpl. rewrite rmtree_lookup by done.
        rewrite <- Hf. eapply Hsync; done. }
    destruct (getitem _ _) as [[s|l|d|]|e1]; cbv beta iota zeta in Hpkg;
      try (by injection Hpkg as <- _); by eapply Hrest. }
  assert (Fs.is_dir (fs w') local_folder = true) as Hdir.
  { rewrite (is_dir_ext fs1) by (by apply Hframe).
    by eapply mkdir_parents_is_dir. }
  assert (Fs.tree (fs w') local_folder = Fs.tree (fs w) local_folder) as Htree.
  { apply tree_eq. intros q [Hq Hne]. rewrite Hframe by done.
    eapply mkdir_parents_below; done. }
  done.
Qed.

(** C9: the destination folder is made before the declaration is read,
    before anything is fetched or verified.  So when the folder did not
    exist, could be made, and the processing of the package then fails, the
    folder exists afterwards, and is empty. *)
Theorem failed_download_leaves_folder self console package_name w fs1 w' e :
  let local_folder := Path.div (Pkg.folder self) package_name in
  downloads_within →
  sync_fails_clean →
  tmp_apart local_folder →
  Fs.exists_ (fs w) local_folder = false →
  Fs.tree (fs w) local_folder = ∅ →
  Fs.mkdir_parents (fs w) local_folder = (fs1, Ok tt) →
  download_package self console package_name w = (w', Raise e) →
  Fs.is_dir (fs w') local_folder = true ∧ Fs.tree (fs w') local_folder = ∅.
Proof.
  intros local_folder Hwithin Hsync Hapart _ Hempty Hmk Hpkg.
  destruct (failed_package_keeps_folder self console package_name w fs1 w' e)
    as [Hdir Htree]; try done.
  split; [done|]. fold local_folder in Htree. by rewrite Htree.
Qed.

End Orchestrator.

(** ** Selection of the packages *)


Example legacy_empty_list_downloads :
  Demo.download_dependencies
    [("good", DepStr "https://github.com/acme/lib/blob/main/good.py")]
    (Some []) ["lib"] true Demo.w0
  = (mkWorld (list_to_map [(["lib"], Dir); (["lib"; "good.py"], File "def g(): return ()")])
       [ConsoleLog "good: Updating...";
        HttpGet "https://raw.githubusercontent.com/acme/lib/main/good.py";
        ConsoleLog "good: Updated."],
     Ok tt).
Proof. vm_compute. reflexivity. Qed.

(** ** Pruning *)

Lemma clean_missing_folder self w :
  Fs.exists_ (fs w) (Pkg.folder self) = false → Pkg.clean self w = (w, Ok tt).
Proof. intros H. unfold Pkg.clean. by rewrite H. Qed.

Lemma elem_of_glob fs d p :
  p ∈ (Fs.glob fs d).*1 ↔ is_Some (fs !! p) ∧ Path.parent p = d ∧ p ≠ [].
Proof.
  unfold Fs.glob. rewrite list_elem_of_fmap. split.
  - intros ([q n] & -> & [H1 H2]%list_elem_of_filter). simpl in *.
    apply elem_of_map_to_list in H2. eauto.
  - intros ([n Hn] & H1 & H2). exists (p, n). split; [done|].
    apply list_elem_of_filter. split; [done|]. by apply elem_of_map_to_list.
Qed.

Lemma NoDup_glob fs d : NoDup (Fs.glob fs d).*1.
Proof.
  apply (sublist_NoDup _ (map_to_list fs).*1); [apply NoDup_fst_map_to_list|].
  unfold Fs.glob. apply fmap_sublist, sublist_filter.
Qed.

(** The loop of [clean] over the entries [l]: it stops at the first
    directory that is not declared, and that directory stays. *)
Lemma clean_loop_stale_directory (dependencies : list string) (d : fspath) l : ∀ w,
  NoDup l → (∀ p, p ∈ l → is_Some (fs w !! p)) →
  d ∈ l → fs w !! d = Some Dir → Path.name d ∉ dependencies →
  ∃ w', for_each l
          (λ existing_dep,
             if bool_decide (Path.name existing_dep ∈ dependencies) then mret tt
             else on_fs (λ fs, Fs.unlink fs existing_dep)) w
        = (w', Raise IsADirectoryError)
        ∧ fs w' !! d = Some Dir.
Proof.
  induction l as [|p l IH]; intros w Hnd Hall Hd Hdir Hname.
  { by apply elem_of_nil in Hd. }
  apply NoDup_cons in Hnd as [Hp Hnd]. simpl. unfold_M.
  case_bool_decide as Hdecl.
  - apply IH; try done.
    + intros q Hq. apply Hall. by right.
    + apply elem_of_cons in Hd as [->|Hd]; done.
  - unfold Fs.unlink. destruct (Hall p) as [n Hn]; [by left|]. rewrite Hn.
    destruct n as [code|].
    + simpl. assert (d ≠ p) as Hne by congruence.
      apply IH; simpl; try done.
      * intros q Hq. rewrite lookup_delete_ne by (by intros ->).
        apply Hall. by right.
      * apply elem_of_cons in Hd as [->|Hd]; done.
      * by rewrite lookup_delete_ne.
    + simpl. destruct w. by eexists.
Qed.

(** Whenever the folder of the group holds a directory whose name is not
    declared, [clean] raises and the directory is still there. *)
Lemma clean_stale_directory_raises self w d :
  Fs.exists_ (fs w) (Pkg.folder self) = true →
  Path.parent d = Pkg.folder self → d ≠ [] →
  fs w !! d = Some Dir →
  Path.name d ∉ keys (Pkg.dependencies (Pkg.config self)) →
  ∃ w', Pkg.clean self w = (w', Raise IsADirectoryError) ∧ fs w' !! d = Some Dir.
Proof.
  intros Hex Hparent Hne Hdir Hname. unfold Pkg.clean. rewrite Hex. simpl.
  apply clean_loop_stale_directory; try done.
  - apply NoDup_glob.
  - intros p Hp. by apply elem_of_glob in Hp as [? _].
  - apply elem_of_glob. by rewrite Hdir.
Qed.

(** The loop of [clean] over entries whose undeclared ones are all plain
    files: these are removed and nothing else is touched. *)
Lemma clean_loop_stale_files (dependencies : list string) l : ∀ w,
  NoDup l →
  (∀ p, p ∈ l → Path.name p ∉ dependencies → ∃ code, fs w !! p = Some (File code)) →
  ∃ w', for_each l
          (λ existing_dep,
             if bool_decide (Path.name existing_dep ∈ dependencies) then mret tt
             else on_fs (λ fs, Fs.unlink fs existing_dep)) w
        = (w', Ok tt)
        ∧ trace w' = trace w
        ∧ ∀ q, fs w' !! q = if decide (q ∈ l ∧ Path.name q ∉ dependencies)
                            then None else fs w !! q.
Proof.
  induction l as [|p l IH]; intros w Hnd Hall.
  { exists w. split_and!; [done..|]. intros q. rewrite decide_False; [done|].
    intros [H%elem_of_nil _]. done. }
  apply NoDup_cons in Hnd as [Hp Hnd]. simpl. unfold_M.
  case_bool_decide as Hdecl.
  - destruct (IH w Hnd) as (w' & Hrun & Htr & Hfs).
    { intros q Hq. apply Hall. by right. }
    exists w'. split_and!; [done..|]. intros q. rewrite Hfs.
    destruct (decide (q ∈ l ∧ Path.name q ∉ dependencies)) as [[Hq Hn]|Hnot].
    + rewrite decide_True; [done|]. split; [by right|done].
    + rewrite decide_False; [done|].
      intros [[->|Hq]%elem_of_cons Hn]; [done|]. by apply Hnot.
  - destruct (Hall p) as [code Hcode]; [by left|done|].
    unfold Fs.unlink. rewrite Hcode. simpl.
    destruct (IH (mkWorld (delete p (fs w)) (trace w)) Hnd) as (w' & Hrun & Htr & Hfs).
    { intros q Hq Hn. simpl. rewrite lookup_delete_ne by (by intros ->).
      apply Hall; [by right|done]. }
    exists w'. split_and!; [done..|]. intros q. rewrite Hfs. simpl.
    destruct (decide (q = p)) as [->|Hqp].
    + rewrite lookup_delete_eq. rewrite (decide_True (P := p ∈ p :: l ∧ _)).
      * by case_decide.
      * split; [by left|done].
    + rewrite lookup_delete_ne by done.
      destruct (decide (q ∈ l ∧ Path.name q ∉ dependencies)) as [[Hq Hn]|Hnot].
      * rewrite decide_True; [done|]. split; [by right|done].
      * rewrite decide_False; [done|].
        intros [[->|Hq]%elem_of_cons Hn]; [done|]. by apply Hnot.
Qed.

(** When every undeclared entry of the folder is a plain file, [clean]
    removes exactly those entries. *)
Lemma clean_removes_stale_files self w :
  Fs.exists_ (fs w) (Pkg.folder self) = true →
  (∀ p, Path.parent p = Pkg.folder self → p ≠ [] →
        Path.name p ∉ keys (Pkg.dependencies (Pkg.config self)) →
        fs w !! p ≠ Some Dir) →
  ∃ w', Pkg.clean self w = (w', Ok tt)
        ∧ trace w' = trace w
        ∧ ∀ q, fs w' !! q
               = if decide ((is_Some (fs w !! q) ∧ Path.parent q = Pkg.folder self ∧ q ≠ [])
                            ∧ Path.name q ∉ keys (Pkg.dependencies (Pkg.config self)))
                 then None else fs w !! q.
Proof.
  intros Hex Hfiles. unfold Pkg.clean. rewrite Hex. simpl.
  destruct (clean_loop_stale_files (keys (Pkg.dependencies (Pkg.config self)))
              (Fs.glob (fs w) (Pkg.folder self)).*1 w) as (w' & Hrun & Htr & Hfs).
  - apply NoDup_glob.
  - intros p [[n Hn] [Hpar Hne]]%elem_of_glob Hname.
    destruct n as [code|]; [by eexists|]. by destruct (Hfiles p Hpar Hne Hname).
  - exists w'. split_and!; [done..|]. intros q. rewrite Hfs.
    set (declared := keys (Pkg.dependencies (Pkg.config self))).
    destruct (decide (q ∈ (Fs.glob (fs w) (Pkg.folder self)).*1 ∧ Path.name q ∉ declared))
      as [[Hq%elem_of_glob Hn]|Hnot].
    + by rewrite decide_True.
    + rewrite decide_False; [done|]. intros [Hq%elem_of_glob Hn]. by apply Hnot.
Qed.

(** C7 fails on the code.  After a download the entries of the group's
    folder are directories, one for each package; when a package is taken
    out of the manifest, [clean] meets its directory, [unlink] refuses it,
    and [clean] raises with the stale entry still in place. *)
Theorem clean_raises_on_stale_directory :
  fs Demo.downloaded !! ["deps"; "main"; "baz"] = Some Dir
  ∧ Pkg.clean Demo.without_baz Demo.downloaded
    = (Demo.downloaded, Raise IsADirectoryError).
Proof. vm_compute. split; reflexivity. Qed.

(** A stale entry that is a plain file is removed, and the declared
    entries stay. *)
Example clean_removes_stale_file :
  Pkg.clean Demo.without_baz
    (mkWorld (list_to_map [(["deps"], Dir); (["deps"; "main"], Dir);
                           (["deps"; "main"; "foo"], Dir);
                           (["deps"; "main"; "bar"], File "x = (1)");
                           (["deps"; "main"; "baz"], File "y = 2")]) [])
  = (mkWorld (list_to_map [(["deps"], Dir); (["deps"; "main"], Dir);
                           (["deps"; "main"; "foo"], Dir);
                           (["deps"; "main"; "bar"], File "x = (1)")]) [],
     Ok tt).
Proof. vm_compute. reflexivity. Qed.

(** ** The theorems at the concrete environment *)

Lemma pair_with_second {A B} (x : A * B) (b : B) : x.2 = b → x = (x.1, b).
Proof. destruct x. simpl. by intros ->. Qed.

Lemma demo_github_within : writes_within Demo.github.
Proof.
  intros fs dst uri q Hq. unfold Demo.github.
  destruct (Str.startswith _ _); [|done]. destruct (getitem _ _); [|done]. simpl.
  apply lookup_insert_ne. intros <-. apply Hq. by apply prefix_app_r.
Qed.

Lemma demo_downloads_within : Pkg.downloads_within Demo.downloaders Demo.fsspec_get.
Proof.
  split; [|done]. intros p Hp. apply list_elem_of_singleton in Hp as ->.
  apply demo_github_within.
Qed.

Lemma demo_sync_fails_clean : Pkg.sync_fails_clean Demo.sync.
Proof. intros fs src dst fs' e q H. unfold Demo.sync in H. done. Qed.

Lemma demo_tmp_apart package_name :
  Pkg.tmp_apart Demo.mkdtemp (["deps"; "main"] ++ [package_name]).
Proof.
  intros fs. unfold Demo.mkdtemp. split; intros [k Hk]; simpl in Hk; by simplify_eq.
Qed.


Lemma download_stops_at_first_failure_witness :
  Demo.download Demo.main (Some (["good"] ++ "bad" :: ["plain"])) true Demo.w0
  = (mkWorld (list_to_map
                [(["deps"], Dir); (["deps"; "main"], Dir);
                 (["deps"; "main"; "good"], Dir);
                 (["deps"; "main"; "good"; "good.py"], File "def f(): return (1)");
                 (["deps"; "main"; "bad"], Dir)])
       [ConsoleLog "good: Updating...";
        CallDownloader "github" ["tmp"; "tmp0"] "https://github.com/acme/lib/good.py";
        CallSync ["tmp"; "tmp0"] ["deps"; "main"; "good"];
        ConsoleLog "[bold green]good: Updated.";
        ConsoleLog "bad: Updating...";
        CallDownloader "github" ["tmp"; "tmp0"] "https://github.com/acme/lib/bad.py"],
     Raise SyntaxError).
Proof.
  apply (download_stops_at_first_failure Demo.ast_parses Demo.downloaders
           Demo.fsspec_read Demo.fsspec_get Demo.sync Demo.mkdtemp
           Demo.main true ["good"] "bad" ["plain"] Demo.w0
           (Demo.download Demo.main (Some ["good"]) true Demo.w0).1).
  - vm_compute. reflexivity.
  - vm_compute. reflexivity.
Defined.

(** C4, as stated, fails: the first package fails at verification (its
    staged script does not parse), and the second is not attempted: no
    folder is made for it and nothing is logged or fetched for it, unlike
    in the loop that sets failures aside. *)
Lemma download_does_not_isolate_failures :
  (Demo.download Demo.main (Some ["bad"; "good"]) true Demo.w0).2 = Raise SyntaxError
  ∧ fs (Demo.download Demo.main (Some ["bad"; "good"]) true Demo.w0).1
      !! ["deps"; "main"; "good"] = None
  ∧ trace (Demo.download Demo.main (Some ["bad"; "good"]) true Demo.w0).1
    = [ConsoleLog "bad: Updating...";
       CallDownloader "github" ["tmp"; "tmp0"] "https://github.com/acme/lib/bad.py"]
  ∧ (Demo.download Demo.main (Some ["bad"; "good"]) true Demo.w0).1
    ≠ (for_each_isolated ["bad"; "good"]
         (Demo.download_package Demo.main true) Demo.w0).1.
Proof.
  split_and!; try (vm_compute; reflexivity).
  intros Heq. apply (f_equal trace) in Heq. vm_compute in Heq. discriminate Heq.
Qed.

Lemma list_declaration_first_raises_witness :
  Demo.download Demo.main (Some ["several"; "good"]) true Demo.w0
  = (mkWorld (Fs.mkdir_parents (fs Demo.w0) ["deps"; "main"; "several"]).1 (trace Demo.w0),
     Raise (NotImplementedError "List dependencies not yet supported.")).
Proof.
  apply (list_declaration_first_raises Demo.ast_parses Demo.downloaders
           Demo.fsspec_read Demo.fsspec_get Demo.sync Demo.mkdtemp
           Demo.main true "several" ["good"] ["https://example.com/lib/plain.py"]
           Demo.w0).
  - reflexivity.
  - apply pair_with_second. vm_compute. reflexivity.
Defined.

(** C8, as stated, fails for a package that is not the first.  After
    [good] the list-valued [several] raises its error with a downloader
    and the sync engine already called; after [bad], which fails at
    verification, [several] is not reached and the error raised is not the
    one for list declarations. *)
Lemma list_declaration_later_comes_after_fetch :
  (Demo.download Demo.main (Some ["good"; "several"]) true Demo.w0).2
  = Raise (NotImplementedError "List dependencies not yet supported.")
  ∧ CallDownloader "github" ["tmp"; "tmp0"] "https://github.com/acme/lib/good.py"
    ∈ trace (Demo.download Demo.main (Some ["good"; "several"]) true Demo.w0).1
  ∧ CallSync ["tmp"; "tmp0"] ["deps"; "main"; "good"]
    ∈ trace (Demo.download Demo.main (Some ["good"; "several"]) true Demo.w0).1
  ∧ (Demo.download Demo.main (Some ["bad"; "several"]) true Demo.w0).2 = Raise SyntaxError.
Proof.
  split_and!.
  - vm_compute. reflexivity.
  - vm_compute. apply elem_of_cons. right. apply elem_of_cons. by left.
  - vm_compute. do 2 (apply elem_of_cons; right). apply elem_of_cons. by left.
  - vm_compute. reflexivity.
Qed.

Lemma failed_download_leaves_folder_witness :
  Fs.is_dir (fs (Demo.download_package Demo.main true "bad" Demo.w0).1)
    ["deps"; "main"; "bad"] = true
  ∧ Fs.tree (fs (Demo.download_package Demo.main true "bad" Demo.w0).1)
      ["deps"; "main"; "bad"] = ∅.
Proof.
  apply (failed_download_leaves_folder Demo.ast_parses Demo.downloaders
           Demo.fsspec_read Demo.fsspec_get Demo.sync Demo.mkdtemp
           Demo.main true "bad" Demo.w0
           (list_to_map [(["deps"], Dir); (["deps"; "main"], Dir);
                         (["deps"; "main"; "bad"], Dir)])
           _ SyntaxError).
  - apply demo_downloads_within.
  - apply demo_sync_fails_clean.
  - apply (demo_tmp_apart "bad").
  - reflexivity.
  - vm_compute. reflexivity.
  - vm_compute. reflexivity.
  - vm_compute. reflexivity.
Defined.

Lemma download_uri_dispatch_witness :
  Pkg.download_uri Demo.downloaders Demo.fsspec_read Demo.fsspec_get
    ["tmp"] "https://example.com/lib/plain.py" Demo.w0
  = Pkg._download_generic Demo.fsspec_read Demo.fsspec_get
      ["tmp"] "https://example.com/lib/plain.py"
      (mkWorld ∅ [CallDownloader "github" ["tmp"] "https://example.com/lib/plain.py"]).
Proof.
  destruct (download_uri_dispatch Demo.downloaders Demo.fsspec_read Demo.fsspec_get
              ["tmp"] "https://example.com/lib/plain.py" Demo.w0) as (_ & Hall & _).
  apply Hall. vm_compute. reflexivity.
Defined.

(** * Further properties of the code *)

(** ** The locator resolver, beyond the claims *)

Section ResolverMore.

Variable urlparse : string → result ParseResult.

(** X1: a github.com URL whose path splits into fewer than five segments
    is not passed over: the unpacking fails and the resolver raises a
    ValueError. *)
Theorem process_url_github_short_path url parsed :
  urlparse url = Ok parsed →
  Legacy._strip_www (netloc parsed) = "github.com" →
  (length (Str.split "/" (path parsed)) < 5)%nat →
  ∃ msg, Legacy._process_url urlparse url = Raise (ValueError msg).
Proof.
  intros Hp Hn Hlen. unfold Legacy._process_url, Legacy.try_parsers,
    Legacy._process_url_github. rewrite Hp. simpl. rewrite Hn. simpl.
  destruct (Str.split "/" (path parsed)) as [|x0 [|x1 [|x2 [|x3 [|x4 rest]]]]];
    simpl in Hlen; try lia; by eexists.
Qed.

(** X2: what the resolver returns is the locator it was given or a URL on
    the raw-content host, under https. *)
Theorem process_url_result_shape url r :
  Legacy._process_url urlparse url = Ok r →
  r = url ∨ Str.startswith "https://raw.githubusercontent.com" r = true.
Proof.
  unfold Legacy._process_url, Legacy.try_parsers, Legacy._process_url_github.
  destruct (urlparse url) as [parsed|e]; [|by destruct e; intros [= <-]; left].
  simpl. destruct (String.eqb _ "github.com").
  - destruct (Str.split "/" (path parsed)) as [|x0 [|x1 [|x2 [|x3 [|x4 rest]]]]];
      try done. intros [= <-]. right. reflexivity.
  - destruct (String.eqb _ "raw.githubusercontent.com").
    + intros [= <-]. right. unfold Str.startswith. simpl.
      by destruct (path parsed).
    + intros [= <-]. by left.
Qed.

(** X3: the signal by which a parser declines stays inside the resolver:
    whatever [urlparse] does, the resolver does not raise NonMatchingURL. *)
Theorem process_url_never_declines url :
  Legacy._process_url urlparse url ≠ Raise NonMatchingURL.
Proof.
  unfold Legacy._process_url, Legacy.try_parsers, Legacy._process_url_github.
  destruct (urlparse url) as [parsed|e]; [|by destruct e].
  simpl. destruct (String.eqb _ "github.com").
  - by destruct (Str.split "/" (path parsed)) as [|x0 [|x1 [|x2 [|x3 [|x4 rest]]]]].
  - by destruct (String.eqb _ "raw.githubusercontent.com").
Qed.

End ResolverMore.

Lemma process_url_github_short_path_witness :
  ∃ msg, Legacy._process_url py_urlparse "https://github.com/acme/lib" = Raise (ValueError msg).
Proof.
  apply (process_url_github_short_path py_urlparse _
           (mkParseResult "https" "github.com" "/acme/lib" "" "" "")).
  - vm_compute. reflexivity.
  - vm_compute. reflexivity.
  - vm_compute. lia.
Defined.

Lemma process_url_result_shape_witness :
  "https://raw.githubusercontent.com/u/p/b/x.py" = "https://github.com/u/p/blob/b/x.py"
  ∨ Str.startswith "https://raw.githubusercontent.com"
      "https://raw.githubusercontent.com/u/p/b/x.py" = true.
Proof.
  apply (process_url_result_shape py_urlparse "https://github.com/u/p/blob/b/x.py").
  vm_compute. reflexivity.
Defined.

(** ** The legacy downloader *)

Lemma mkdir_from_files rest fs base fs' r q c :
  Fs.mkdir_from fs base rest = (fs', r) →
  fs' !! q = Some (File c) → fs !! q = Some (File c).
Proof.
  intros H Hq. destruct (mkdir_from_lookup _ _ _ _ _ q H) as [<-|(_ & Hd & _)]; [done|].
  congruence.
Qed.

Lemma write_files fs p data fs' r q c :
  Fs.write fs p data = (fs', r) →
  fs' !! q = Some (File c) →
  fs !! q = Some (File c) ∨ (q = p ∧ c = data ∧ r = Ok tt).
Proof.
  unfold Fs.write. intros H Hq. destruct p as [|x p]; [injection H as <- _; by left|].
  destruct (Fs.is_dir fs _); [|injection H as <- _; by left].
  destruct (fs !! (x :: p)) as [[code|]|] eqn:E; injection H as <- <-; try by left.
  - destruct (decide (q = x :: p)) as [->|Hne].
    + rewrite lookup_insert_eq in Hq. injection Hq as <-. by right.
    + rewrite lookup_insert_ne in Hq by done. by left.
  - destruct (decide (q = x :: p)) as [->|Hne].
    + rewrite lookup_insert_eq in Hq. injection Hq as <-. by right.
    + rewrite lookup_insert_ne in Hq by done. by left.
Qed.

Lemma universal_newlines_id s :
  Str.contains Str.CR s = false → Str.universal_newlines s = s.
Proof.
  induction s as [|c s IH]; simpl; [done|].
  intros [Hc Hs]%orb_false_elim. rewrite Hc. by rewrite (IH Hs).
Qed.

Section LegacyMore.

Variable urlparse : string → result ParseResult.
Variable httpx_get : string → result string.
Variable ast_parses : string → bool.

Local Abbreviation download_dependency :=
  (Legacy.download_dependency urlparse httpx_get ast_parses).
Local Abbreviation download_dependencies :=
  (Legacy.download_dependencies urlparse httpx_get ast_parses).

(** What one turn of the loop does, stage by stage. *)
Lemma download_dependency_unfold dependencies local_dir console pkg_name w :
  download_dependency dependencies local_dir console pkg_name w =
  match getitem dependencies pkg_name with
  | Raise e => (w, Raise e)
  | Ok dep =>
    match match dep with
          | DepStr s => Some [("path", s)]
          | DepDict d => Some d
          | _ => None
          end with
    | None => (w, Raise (ValueError ("Invalid value for key " +:+ pkg_name +:+ ".")))
    | Some dep =>
      let started := trace w ++ (if console
                                 then [ConsoleLog (pkg_name +:+ ": Updating...")]
                                 else []) in
      match getitem dep "path" with
      | Raise e => (mkWorld (fs w) started, Raise e)
      | Ok path_ =>
        match Legacy._process_url urlparse path_ with
        | Raise e => (mkWorld (fs w) started, Raise e)
        | Ok url =>
          let ext := Path.suffix (Path.of_string url) in
          if String.eqb ext ".py" then
            let dst := Path.div local_dir (pkg_name +:+ ext) in
            match Fs.mkdir_parents (fs w) (Path.parent dst) with
            | (fs1, Raise e) => (mkWorld fs1 started, Raise e)
            | (fs1, Ok _) =>
              let asked := started ++ [HttpGet url] in
              match httpx_get url with
              | Raise e => (mkWorld fs1 asked, Raise e)
              | Ok new_code =>
                if ast_parses new_code then
                  match match Fs.read_text fs1 dst with
                        | Raise FileNotFoundError => Ok ""
                        | r => r
                        end with
                  | Raise e => (mkWorld fs1 asked, Raise e)
                  | Ok old_code =>
                    if String.eqb new_code old_code then
                      (mkWorld fs1 (asked ++ if console
                                             then [ConsoleLog (pkg_name +:+ ": No changes detected.")]
                                             else []),
                       Ok tt)
                    else
                      let '(fs2, r) := Fs.write fs1 dst new_code in
                      (mkWorld fs2 (asked ++ if console
                                             then [ConsoleLog (pkg_name +:+ ": Updated.")]
                                             else []),
                       r)
                  end
                else (mkWorld fs1 asked, Raise SyntaxError)
              end
            end
          else (mkWorld (fs w) started,
                Raise (NotImplementedError ("Don't know how to process " +:+ url +:+ ".")))
        end
      end
    end
  end.
Proof.
  unfold Legacy.download_dependency, Legacy._get_text, log. unfold_M.
  destruct (getitem dependencies pkg_name) as [dep|e]; [|done].
  destruct dep as [s|l|d|]; try done.
  all: destruct console; cbv beta iota zeta; cbn [fs trace]; rewrite ?app_nil_r.
  all: destruct (getitem _ "path") as [path_|e]; try (by destruct w).
  all: destruct (Legacy._process_url urlparse path_) as [url|e]; try (by destruct w).
  all: destruct (String.eqb _ ".py"); try (by destruct w).
  all: cbn [fs trace]; destruct (Fs.mkdir_parents _ _) as [fs1 [[]|e]];
       cbv beta iota zeta; cbn [fs trace]; try reflexivity.
  all: destruct (httpx_get url) as [new_code|e];
       cbv beta iota zeta; cbn [fs trace]; try reflexivity.
  all: destruct (ast_parses new_code); cbv beta iota zeta; cbn [fs trace]; try reflexivity.
  all: destruct (Fs.read_text fs1 _) as [old|e]; cbv beta iota zeta; cbn [fs trace].
  all: try (destruct (String.eqb new_code old); cbv beta iota zeta; cbn [fs trace];
            rewrite ?app_nil_r; try reflexivity;
            destruct (Fs.write _ _ _) as [fs2 [[]|e2]]; reflexivity).
  all: destruct e; cbv beta iota zeta; cbn [fs trace]; try reflexivity.
  all: destruct (String.eqb new_code ""); cbv beta iota zeta; cbn [fs trace];
       rewrite ?app_nil_r; try reflexivity;
       destruct (Fs.write _ _ _) as [fs2 [[]|e2]]; reflexivity.
Qed.

Lemma download_dependency_files dependencies local_dir console pkg_name w w' r q c :
  download_dependency dependencies local_dir console pkg_name w = (w', r) →
  fs w' !! q = Some (File c) →
  fs w !! q = Some (File c)
  ∨ (q = Path.div local_dir (pkg_name +:+ ".py") ∧ ast_parses c = true
     ∧ ∃ url, httpx_get url = Ok c).
Proof.
  rewrite download_dependency_unfold. intros Hrun Hq.
  destruct (getitem dependencies pkg_name) as [dep|e]; [|injection Hrun as <- _; by left].
  destruct (match dep with DepStr s => _ | DepList _ => _ | DepDict d => _ | DepOther => _ end)
    as [dep'|]; [|injection Hrun as <- _; by left].
  cbv zeta in Hrun.
  destruct (getitem dep' "path") as [path_|e]; [|injection Hrun as <- _; by left].
  destruct (Legacy._process_url urlparse path_) as [url|e]; [|injection Hrun as <- _; by left].
  destruct (String.eqb _ ".py") eqn:Hext; [|injection Hrun as <- _; by left].
  apply String.eqb_eq in Hext. rewrite Hext in Hrun.
  destruct (Fs.mkdir_parents _ _) as [fs1 r1] eqn:Hmk.
  assert (∀ c, fs1 !! q = Some (File c) → fs w !! q = Some (File c)) as Hfs1.
  { intros c'. by eapply mkdir_from_files. }
  destruct r1 as [[]|e]; [|injection Hrun as <- _; left; by apply Hfs1].
  destruct (httpx_get url) as [new_code|e] eqn:Hget;
    [|injection Hrun as <- _; left; by apply Hfs1].
  destruct (ast_parses new_code) eqn:Hparse;
    [|injection Hrun as <- _; left; by apply Hfs1].
  destruct (match Fs.read_text fs1 _ with Ok a => _ | Raise e => _ end) as [old_code|e];
    [|injection Hrun as <- _; left; by apply Hfs1].
  destruct (String.eqb new_code old_code); [injection Hrun as <- _; left; by apply Hfs1|].
  destruct (Fs.write fs1 _ new_code) as [fs2 r2] eqn:Hwr. injection Hrun as <- _.
  simpl in Hq. destruct (write_files _ _ _ _ _ _ _ Hwr Hq) as [?|(-> & -> & _)].
  - left. by apply Hfs1.
  - right. split_and!; [done..|]. by exists url.
Qed.

(** X4: the legacy downloader stores nothing that failed to parse: every
    file on disk after [download_dependencies], whether it returned or
    raised, was there before with the same text, or is the file of a
    package, holding text that was fetched and that [ast.parse] accepted. *)
Theorem download_dependencies_stores_parsed_code
    dependencies packages local_dir console w w' r q c :
  download_dependencies dependencies packages local_dir console w = (w', r) →
  fs w' !! q = Some (File c) →
  fs w !! q = Some (File c)
  ∨ (ast_parses c = true
     ∧ ∃ pkg_name url, q = Path.div local_dir (pkg_name +:+ ".py")
                       ∧ httpx_get url = Ok c).
Proof.
  unfold Legacy.download_dependencies. cbv zeta.
  generalize (if not_ packages then keys dependencies else default [] packages).
  intros l. revert w. induction l as [|pkg_name l IH]; intros w; simpl.
  - intros [= <- _]. by left.
  - unfold_M.
    destruct (download_dependency dependencies local_dir console pkg_name w)
      as [w1 r1] eqn:Hone.
    assert (∀ c, fs w1 !! q = Some (File c) →
                 fs w !! q = Some (File c)
                 ∨ (ast_parses c = true
                    ∧ ∃ pkg_name url, q = Path.div local_dir (pkg_name +:+ ".py")
                                      ∧ httpx_get url = Ok c)) as Hstep.
    { intros c' Hc'.
      destruct (download_dependency_files _ _ _ _ _ _ _ _ _ Hone Hc')
        as [?|(-> & ? & url & ?)]; [by left|right]. split; [done|]. by exists pkg_name, url. }
    destruct r1 as [[]|e].
    + intros Hrest Hq. destruct (IH w1 Hrest Hq) as [Hold|?]; [|by right].
      by apply Hstep.
    + intros [= <- _] Hq. by apply Hstep.
Qed.

Lemma mkdir_from_dirs rest : ∀ fs base fs' pre c post,
  Fs.mkdir_from fs base rest = (fs', Ok tt) →
  rest = pre ++ c :: post →
  fs' !! (base ++ pre ++ [c]) = Some Dir.
Proof.
  induction rest as [|x rest IH]; intros fs base fs' pre c post Hmk Hrest.
  { by destruct pre. }
  simpl in Hmk.
  assert (∀ fs1, fs1 !! (base ++ [x]) = Some Dir →
                 Fs.mkdir_from fs1 (base ++ [x]) rest = (fs', Ok tt) →
                 fs' !! (base ++ pre ++ [c]) = Some Dir) as Hstep.
  { intros fs1 Hx Hrun. destruct pre as [|y pre]; simpl in Hrest.
    - injection Hrest as <- <-. simpl.
      destruct (mkdir_from_lookup _ _ _ _ _ (base ++ [x]) Hrun) as [->|(Hn & _)]; congruence.
    - injection Hrest as <- ->.
      change (base ++ (x :: pre) ++ [c]) with (base ++ [x] ++ pre ++ [c]).
      rewrite (assoc_L (++) base). by eapply IH. }
  destruct (fs !! (base ++ [x])) as [[code|]|] eqn:Hx; [done| |].
  - by eapply Hstep.
  - eapply Hstep; [|done]. apply lookup_insert_eq.
Qed.

Lemma mkdir_from_present rest : ∀ fs base,
  (∀ pre c post, rest = pre ++ c :: post → fs !! (base ++ pre ++ [c]) = Some Dir) →
  Fs.mkdir_from fs base rest = (fs, Ok tt).
Proof.
  induction rest as [|x rest IH]; intros fs base Hall; [done|]. simpl.
  pose proof (Hall [] x rest eq_refl) as Hx. simpl in Hx. rewrite Hx. apply IH.
  intros pre c post ->. rewrite <- (assoc_L (++)).
  apply (Hall (x :: pre) c post). done.
Qed.

(** X5: a second run finds nothing to do, for text without carriage
    returns.  When the text the network serves holds no CR (so that it
    reads back from disk as it was written) and a package has been
    processed without error, processing it again from the world this left
    returns without error and leaves the filesystem as it is. *)
Theorem download_dependency_again dependencies local_dir console pkg_name w w1 :
  (∀ url code, httpx_get url = Ok code → Str.contains Str.CR code = false) →
  download_dependency dependencies local_dir console pkg_name w = (w1, Ok tt) →
  ∃ w2, download_dependency dependencies local_dir console pkg_name w1 = (w2, Ok tt)
        ∧ fs w2 = fs w1
        ∧ ConsoleLog (pkg_name +:+ ": Updated.") ∉ drop (length (trace w1)) (trace w2).
Proof.
  rewrite !download_dependency_unfold. intros Hnocr Hrun.
  destruct (getitem dependencies pkg_name) as [dep|e]; [|done].
  destruct (match dep with DepStr s => _ | DepList _ => _ | DepDict d => _ | DepOther => _ end)
    as [dep'|]; [|done].
  cbv zeta in *.
  destruct (getitem dep' "path") as [path_|e]; [|done].
  destruct (Legacy._process_url urlparse path_) as [url|e]; [|done].
  destruct (String.eqb _ ".py") eqn:Hext; [|done].
  set (dst := Path.div local_dir (pkg_name +:+ Path.suffix (Path.of_string url))) in *.
  destruct (Fs.mkdir_parents (fs w) (Path.parent dst)) as [fs1 [[]|e]] eqn:Hmk; [|done].
  destruct (httpx_get url) as [new_code|e] eqn:Hget; [|done].
  pose proof (universal_newlines_id _ (Hnocr _ _ Hget)) as Hcr.
  destruct (ast_parses new_code) eqn:Hparse; [|done].
  (* the second run finds the directories in place and the text on disk *)
  assert (∀ fs2, (∀ pre c post, Path.parent dst = pre ++ c :: post →
                                fs2 !! (pre ++ [c]) = Some Dir) →
                 Fs.mkdir_parents fs2 (Path.parent dst) = (fs2, Ok tt)) as Hagain.
  { intros fs2 H. apply mkdir_from_present. intros pre c post. apply H. }
  assert (∀ pre c post, Path.parent dst = pre ++ c :: post →
                        fs1 !! (pre ++ [c]) = Some Dir) as Hdirs.
  { intros pre c post. apply (mkdir_from_dirs _ _ [] _ _ _ _ Hmk). }
  assert (∀ t1 t2 : list event,
            ConsoleLog (pkg_name +:+ ": Updated.")
            ∉ drop (length t1)
                (((t1 ++ (if console then [ConsoleLog (pkg_name +:+ ": Updating...")] else []))
                  ++ [HttpGet url])
                 ++ (if console then [ConsoleLog (pkg_name +:+ ": No changes detected.")] else [])))
    as Hlog.
  { intros t1 _. rewrite <- !(assoc_L (++)), drop_app_length.
    assert (pkg_name +:+ ": Updated." ≠ pkg_name +:+ ": Updating...") as Hne1.
    { clear. induction pkg_name as [|a s IH]; simpl; [done|]. intros [= H]. done. }
    assert (pkg_name +:+ ": Updated." ≠ pkg_name +:+ ": No changes detected.") as Hne2.
    { clear. induction pkg_name as [|a s IH]; simpl; [done|]. intros [= H]. done. }
    destruct console; simpl; rewrite ?elem_of_cons, ?elem_of_nil;
      intros H; repeat destruct H as [H|H]; try done;
      injection H as H; done. }
  destruct (Fs.read_text fs1 dst) as [old|e] eqn:Hread.
  - destruct (String.eqb new_code old) eqn:Heq.
    + injection Hrun as <-. cbn [fs trace]. rewrite (Hagain fs1 Hdirs), ?Hread, ?Heq.
      cbv beta iota zeta. rewrite ?Hread, ?Heq.
      eexists. split_and!; [done..|]. apply (Hlog _ []).
    + destruct (Fs.write fs1 dst new_code) as [fs2 r2] eqn:Hwr. injection Hrun as <- ->.
      cbn [fs trace].
      assert (fs2 = <[dst := File new_code]> fs1 ∧ dst ≠ []) as [-> Hne].
      { unfold Fs.write in Hwr. destruct dst as [|x dst']; [done|].
        destruct (Fs.is_dir fs1 _); [|done].
        destruct (fs1 !! (x :: dst')) as [[?|]|]; by injection Hwr as <-. }
      rewrite Hagain.
      2:{ intros pre c post Hp. rewrite lookup_insert_ne; [by eapply Hdirs|].
          intros Hd. pose proof (app_removelast_last "" Hne) as Hsplit.
          unfold Path.parent in Hp. rewrite Hp in Hsplit.
          apply (f_equal length) in Hsplit, Hd.
          repeat rewrite length_app in Hsplit. rewrite length_app in Hd.
          simpl in Hsplit, Hd. lia. }
      cbv beta iota zeta. unfold Fs.read_text. rewrite lookup_insert_eq.
      rewrite Hcr, String.eqb_refl. eexists. split_and!; [done..|]. apply (Hlog _ []).
  - destruct e; try done. destruct (String.eqb new_code "") eqn:Heq.
    + injection Hrun as <-. cbn [fs trace]. rewrite (Hagain fs1 Hdirs), ?Hread, ?Heq.
      cbv beta iota zeta. rewrite ?Hread, ?Heq.
      eexists. split_and!; [done..|]. apply (Hlog _ []).
    + destruct (Fs.write fs1 dst new_code) as [fs2 r2] eqn:Hwr. injection Hrun as <- ->.
      cbn [fs trace].
      assert (fs2 = <[dst := File new_code]> fs1 ∧ dst ≠ []) as [-> Hne].
      { unfold Fs.write in Hwr. destruct dst as [|x dst']; [done|].
        destruct (Fs.is_dir fs1 _); [|done].
        destruct (fs1 !! (x :: dst')) as [[?|]|]; by injection Hwr as <-. }
      rewrite Hagain.
      2:{ intros pre c post Hp. rewrite lookup_insert_ne; [by eapply Hdirs|].
          intros Hd. pose proof (app_removelast_last "" Hne) as Hsplit.
          unfold Path.parent in Hp. rewrite Hp in Hsplit.
          apply (f_equal length) in Hsplit, Hd.
          repeat rewrite length_app in Hsplit. rewrite length_app in Hd.
          simpl in Hsplit, Hd. lia. }
      cbv beta iota zeta. unfold Fs.read_text. rewrite lookup_insert_eq.
      rewrite Hcr, String.eqb_refl. eexists. split_and!; [done..|]. apply (Hlog _ []).
Qed.

End LegacyMore.

(** ** Downloader dispatch, beyond the claims *)

Section DispatchMore.

Variable downloaders : list (string * downloader).
Variable fsspec_read : FS → string → string + fetch_error.
Variable fsspec_get : FS → string → fspath → FS * option fetch_error.

Local Abbreviation _download_generic := (Pkg._download_generic fsspec_read fsspec_get).
Local Abbreviation try_downloaders := (Pkg.try_downloaders fsspec_read fsspec_get).
Local Abbreviation download_uri := (Pkg.download_uri downloaders fsspec_read fsspec_get).

(** X6: the signal by which a downloader declines stays inside the
    dispatch: whatever the registered downloaders do, [download_uri] does
    not raise NonMatchingURI. *)
Theorem download_uri_never_declines dst_folder uri w :
  (download_uri dst_folder uri w).2 ≠ Raise NonMatchingURI.
Proof.
  unfold Pkg.download_uri. revert w.
  induction downloaders as [|p ps IH]; intros w; simpl.
  - apply download_generic_never_declines.
  - unfold try_except.
    destruct (Pkg.call_downloader p dst_folder uri w) as [w' [a|e]]; [done|].
    case_decide as He; [apply IH|]. simpl. congruence.
Qed.

(** X7: when the generic downloader returns, the path it returns is the
    directory it was given or the file in it named after the last
    component of the URI; it lies inside that directory either way. *)
Theorem download_generic_returns_inside dst uri w w' p :
  _download_generic dst uri w = (w', Ok p) →
  (p = dst ∨ p = Path.div dst (Path.name (Path.of_string uri)))
  ∧ dst `prefix_of` p.
Proof.
  intros Hrun.
  assert (p = dst ∨ p = Path.div dst (Path.name (Path.of_string uri))) as Hp.
  { revert Hrun. unfold Pkg._download_generic, Pkg._download_generic_directory.
    unfold_M. simpl.
    destruct (fsspec_read (fs w) uri) as [data|[|msg]]; simpl; [| |done].
    - destruct (Fs.write _ _ _) as [fs' [[]|e]]; simpl.
      + intros [= _ <-]. by right.
      + destruct e; try done. destruct (fsspec_get _ _ _) as [fs'' [err|]]; [done|].
        intros [= _ <-]. by right.
    - destruct (fsspec_get _ _ _) as [fs'' [err|]]; [done|]. intros [= _ <-]. by left. }
  split; [done|]. destruct Hp as [->| ->]; [done|apply div_name_prefix].
Qed.

(** X8: dispatch is confined to the directory it is given: when every
    registered downloader and the recursive copy of [fsspec] write inside
    their destination, nothing outside [dst_folder] is created, changed or
    removed by [download_uri], whatever it returns or raises. *)
Theorem download_uri_confined dst_folder uri w q :
  Pkg.downloads_within downloaders fsspec_get →
  ¬ dst_folder `prefix_of` q →
  fs (download_uri dst_folder uri w).1 !! q = fs w !! q.
Proof. apply download_uri_frame. Qed.

End DispatchMore.

(** ** The group orchestrator, beyond the claims *)

Lemma for_each_app {A} (body : A → M unit) l1 l2 w :
  for_each (l1 ++ l2) body w
  = match for_each l1 body w with
    | (w1, Ok _) => for_each l2 body w1
    | (w1, Raise e) => (w1, Raise e)
    end.
Proof.
  revert w. induction l1 as [|x l1 IH]; intros w; simpl; [done|]. unfold_M.
  destruct (body x w) as [w1 [[]|e]]; [apply IH|done].
Qed.


Lemma rglob_lookup (fs : FS) d p n :
  (p, n) ∈ Fs.rglob fs d ↔ fs !! p = Some n ∧ Fs.below d p.
Proof.
  unfold Fs.rglob. rewrite list_elem_of_filter, elem_of_map_to_list. simpl.
  split; intros [? ?]; by split.
Qed.

Section OrchestratorMore.

Variable ast_parses : string → bool.
Variable downloaders : list (string * downloader).
Variable fsspec_read : FS → string → string + fetch_error.
Variable fsspec_get : FS → string → fspath → FS * option fetch_error.
Variable sync : FS → fspath → fspath → FS * result bool.
Variable mkdtemp : FS → fspath.

Local Abbreviation _verify_files := (Pkg._verify_files ast_parses).
Local Abbreviation fetch := (Pkg.fetch downloaders fsspec_read fsspec_get).
Local Abbreviation stage := (Pkg.stage downloaders fsspec_read fsspec_get mkdtemp).
Local Abbreviation download_package :=
  (Pkg.download_package ast_parses downloaders fsspec_read fsspec_get sync mkdtemp).
Local Abbreviation download :=
  (Pkg.download ast_parses downloaders fsspec_read fsspec_get sync mkdtemp).
Local Abbreviation downloads_within := (Pkg.downloads_within downloaders fsspec_get).
Local Abbreviation sync_within := (Pkg.sync_within sync).
Local Abbreviation unfold_package :=
  (download_package_unfold ast_parses downloaders fsspec_read fsspec_get sync mkdtemp).

Lemma verify_all_accepts files :
  Pkg.verify_all ast_parses files = Ok tt
  ↔ ∀ f n, (f, n) ∈ files → Path.suffix f = ".py" →
           ∃ code, n = File code ∧ ast_parses code = true.
Proof.
  induction files as [|[g m] files IH]; simpl.
  - split; [|done]. intros _ f n Hin. by apply elem_of_nil in Hin.
  - unfold Pkg.verify_file at 1. simpl.
    destruct (String.eqb (Path.suffix g) ".py") eqn:Hs.
    + apply String.eqb_eq in Hs. destruct m as [code|].
      * destruct (ast_parses code) eqn:Hc.
        -- rewrite IH. split.
           ++ intros H f n [[= -> ->]|Hin]%elem_of_cons; [by eexists|by apply H].
           ++ intros H f n Hin. apply H. by right.
        -- split; [done|]. intros H.
           destruct (H g (File code)) as (code' & [= <-] & Hc'); [by left|done|congruence].
      * split; [done|]. intros H.
        destruct (H g Dir) as (code' & ? & _); [by left|done|done].
    + apply String.eqb_neq in Hs. rewrite IH. split.
      * intros H f n [[= -> ->]|Hin]%elem_of_cons; [done|by apply H].
      * intros H f n Hin. apply H. by right.
Qed.

(** X9: verification accepts a folder exactly when every entry below it
    whose suffix is .py is a file whose text [ast.parse] accepts; entries
    with another suffix are not looked at, and a directory named like a
    script is refused.  The world is left as it was either way. *)
Theorem verify_files_accepts_iff folder w :
  (_verify_files folder w).1 = w
  ∧ ((_verify_files folder w).2 = Ok tt
     ↔ ∀ f n, Fs.below folder f → fs w !! f = Some n → Path.suffix f = ".py" →
              ∃ code, n = File code ∧ ast_parses code = true).
Proof.
  split; [done|]. unfold Pkg._verify_files. simpl. rewrite verify_all_accepts. split.
  - intros H f n Hb Hf. apply H. by apply rglob_lookup.
  - intros H f n [Hf Hb]%rglob_lookup. by apply H.
Qed.

(** X10: the staging directory does not outlive the package.  Once the
    declaration has been read, nothing is left at or below the temporary
    directory when [download_package] is over, whether it returned or
    raised, and at whatever stage. *)
Theorem download_package_removes_staging self console package_name w w1 dep_src q :
  Pkg.prepare self console package_name w = (w1, Ok dep_src) →
  mkdtemp (fs w1) `prefix_of` q →
  fs (download_package self console package_name w).1 !! q = None.
Proof.
  intros Hprep Hq. rewrite unfold_package, Hprep. cbv beta iota zeta.
  assert (∀ w', fs (Pkg.leave_tmp (mkdtemp (fs w1)) w') !! q = None) as Hgone.
  { intros w'. simpl. unfold Fs.rmtree. apply map_lookup_filter_None. right.
    intros n _ Hn. by apply Hn. }
  destruct (fetch _ _ _) as [w2 [a|e]]; [|apply Hgone].
  unfold Pkg._verify_files. destruct (Pkg.verify_all _ _) as [[]|e]; [|apply Hgone].
  destruct (Pkg.call_sync _ _ _ _) as [w4 [changed|e]]; [|apply Hgone].
  unfold log. destruct console; apply Hgone.
Qed.



End OrchestratorMore.

Section OrchestratorFrames.

Variable ast_parses : string → bool.
Variable downloaders : list (string * downloader).
Variable fsspec_read : FS → string → string + fetch_error.
Variable fsspec_get : FS → string → fspath → FS * option fetch_error.
Variable sync : FS → fspath → fspath → FS * result bool.
Variable mkdtemp : FS → fspath.

Local Abbreviation _verify_files := (Pkg._verify_files ast_parses).
Local Abbreviation fetch := (Pkg.fetch downloaders fsspec_read fsspec_get).
Local Abbreviation stage := (Pkg.stage downloaders fsspec_read fsspec_get mkdtemp).
Local Abbreviation download_package :=
  (Pkg.download_package ast_parses downloaders fsspec_read fsspec_get sync mkdtemp).
Local Abbreviation download :=
  (Pkg.download ast_parses downloaders fsspec_read fsspec_get sync mkdtemp).
Local Abbreviation downloads_within := (Pkg.downloads_within downloaders fsspec_get).
Local Abbreviation sync_within := (Pkg.sync_within sync).
Local Abbreviation unfold_package :=
  (download_package_unfold ast_parses downloaders fsspec_read fsspec_get sync mkdtemp).

Lemma prepare_adds_no_sync self console package_name w w1 r :
  Pkg.prepare self console package_name w = (w1, r) →
  ∃ started, trace w1 = trace w ++ started ∧ ∀ src dst, CallSync src dst ∉ started.
Proof.
  rewrite prepare_unfold. cbv zeta.
  destruct (Fs.mkdir_parents _ _) as [fs1 [[]|e]].
  2:{ intros [= <- _]. exists []. split; [by rewrite app_nil_r|]. intros ??. apply not_elem_of_nil. }
  assert (∀ src dst, CallSync src dst
            ∉ (if console then [ConsoleLog (package_name +:+ ": Updating...")] else []))
    as Hlog.
  { intros src dst. destruct console; [|apply not_elem_of_nil].
    intros H%list_elem_of_singleton. done. }
  destruct (getitem _ _) as [[s|l|d|]|e]; intros [= <- _]; simpl;
    first [ by eexists | exists []; split; [by rewrite app_nil_r|];
                         intros ??; apply not_elem_of_nil ].
Qed.

(** X13: between staging and sync stands verification, and nothing else.
    When the download of a package has been staged, the sync engine is
    called in the rest of the run exactly when verification accepts the
    staged folder, and then with the staging directory as source and the
    destination folder of the package as destination. *)
Theorem sync_called_iff_verified self console package_name w w2 tmp_dir src dst :
  stage self console package_name w = (w2, Ok tmp_dir) →
  CallSync src dst
    ∈ drop (length (trace w)) (trace (download_package self console package_name w).1)
  ↔ (_verify_files tmp_dir w2).2 = Ok tt
    ∧ src = tmp_dir ∧ dst = Path.div (Pkg.folder self) package_name.
Proof.
  intros Hstage.
  unfold Pkg.stage, Pkg.enter_tmp in Hstage. unfold mbind, M_bind, mret, M_ret in Hstage.
  destruct (Pkg.prepare self console package_name w) as [w1 [dep_src|e]] eqn:Hprep; [|done].
  simpl in Hstage.
  destruct (fetch dep_src _ _) as [w2' [a|e]] eqn:Hfetch; [|done].
  injection Hstage as -> <-.
  destruct (prepare_adds_no_sync _ _ _ _ _ _ Hprep) as (started & Ht1 & Hs1).
  destruct (fetch_trace downloaders fsspec_read fsspec_get dep_src (mkdtemp (fs w1))
              (mkWorld (<[mkdtemp (fs w1) := Dir]> (fs w1)) (trace w1))) as (new & Ht2 & Hs2).
  rewrite Hfetch in Ht2. simpl in Ht2.
  rewrite unfold_package, Hprep. cbv beta iota zeta. rewrite Hfetch.
  unfold Pkg._verify_files. cbn [fst snd].
  destruct (Pkg.verify_all _ _) as [[]|e] eqn:Hver.
  - unfold Pkg.call_sync. unfold_M. cbn [fs trace].
    destruct (sync _ _ _) as [fs4 [changed|e]]; unfold log.
    + destruct console; simpl; unfold mret, M_ret; simpl;
        rewrite Ht2, Ht1, <- !(assoc_L (++)), drop_app_length;
        rewrite !elem_of_app, !list_elem_of_singleton.
      * split.
        -- intros [H|[H|[[= -> ->]|H]]];
             [by apply Hs1 in H|by apply Hs2 in H|done|done].
        -- intros (_ & -> & ->). right. right. by left.
      * split.
        -- intros [H|[H|[= -> ->]]]; [by apply Hs1 in H|by apply Hs2 in H|done].
        -- intros (_ & -> & ->). right. by right.
    + simpl. rewrite Ht2, Ht1, <- !(assoc_L (++)), drop_app_length.
      rewrite !elem_of_app, list_elem_of_singleton. split.
      * intros [H|[H|[= -> ->]]]; [by apply Hs1 in H|by apply Hs2 in H|done].
      * intros (_ & -> & ->). right. by right.
  - simpl. rewrite Ht2, Ht1, <- !(assoc_L (++)), drop_app_length. split.
    + intros [H|H]%elem_of_app; [by apply Hs1 in H|by apply Hs2 in H].
    + by intros [? _].
Qed.

Lemma download_package_frame self console package_name w q :
  downloads_within → sync_within →
  (∀ fs, ¬ mkdtemp fs `prefix_of` q) →
  ¬ Path.div (Pkg.folder self) package_name `prefix_of` q →
  ¬ q `prefix_of` Path.div (Pkg.folder self) package_name →
  fs (download_package self console package_name w).1 !! q = fs w !! q.
Proof.
  intros Hwithin Hsync Htmp Hlocal Hanc.
  rewrite unfold_package, prepare_unfold. cbv zeta.
  destruct (Fs.mkdir_parents _ _) as [fs1 r1] eqn:Hmk.
  assert (fs1 !! q = fs w !! q) as Hfs1.
  { destruct (mkdir_from_lookup _ _ _ _ _ q Hmk) as [|(_ & _ & H)]; [done|]. by destruct Hanc. }
  destruct r1 as [[]|e]; [|done].
  assert (∀ dep_src t,
    fs (match fetch dep_src (mkdtemp fs1) (mkWorld (<[mkdtemp fs1 := Dir]> fs1) t) with
        | (w2, Raise e) => (Pkg.leave_tmp (mkdtemp fs1) w2, Raise e)
        | (w2, Ok _) =>
            match _verify_files (mkdtemp fs1) w2 with
            | (w3, Raise e) => (Pkg.leave_tmp (mkdtemp fs1) w3, Raise e)
            | (w3, Ok _) =>
                match Pkg.call_sync sync (mkdtemp fs1)
                        (Path.div (Pkg.folder self) package_name) w3 with
                | (w4, Raise e) => (Pkg.leave_tmp (mkdtemp fs1) w4, Raise e)
                | (w4, Ok changed) =>
                    log console
                      (if changed
                       then "[bold green]" +:+ package_name +:+ ": Updated."
                       else package_name +:+ ": No changes detected.")
                      (Pkg.leave_tmp (mkdtemp fs1) w4)
                end
            end
        end).1 !! q = fs w !! q) as Hrest.
  { intros dep_src t.
    pose proof (fetch_frame downloaders fsspec_read fsspec_get dep_src (mkdtemp fs1)
                  (mkWorld (<[mkdtemp fs1 := Dir]> fs1) t) q Hwithin (Htmp fs1)) as Hf.
    simpl in Hf. rewrite lookup_insert_ne in Hf by (intros Heq; by apply (Htmp fs1); rewrite Heq).
    destruct (fetch _ _ _) as [w2 [a|e]]; simpl in *.
    2:{ rewrite rmtree_lookup by apply Htmp. congruence. }
    unfold Pkg._verify_files. destruct (Pkg.verify_all _ _) as [[]|e]; simpl.
    2:{ rewrite rmtree_lookup by apply Htmp. congruence. }
    unfold Pkg.call_sync. unfold_M. simpl.
    pose proof (Hsync (fs w2) (mkdtemp fs1) (Path.div (Pkg.folder self) package_name) q Hlocal)
      as Hsy.
    destruct (sync _ _ _) as [fs4 [changed|e]]; simpl in *.
    - destruct console; simpl; rewrite rmtree_lookup by apply Htmp; congruence.
    - rewrite rmtree_lookup by apply Htmp. congruence. }
  destruct (getitem _ _) as [[s|l|d|]|e]; cbv beta iota zeta; try done; apply Hrest.
Qed.

(** X14: a group download stays within the packages it is given.  When
    downloaders and sync write inside their destinations, a path that is
    not in the destination folder of one of the packages, nor above it, nor
    in the temporary directory, is as it was after the download, whether
    the download returned or raised. *)
Theorem download_touches_named_packages_only self console packages w q :
  downloads_within → sync_within →
  (∀ fs, ¬ mkdtemp fs `prefix_of` q) →
  (∀ package_name, package_name ∈ packages →
     ¬ Path.div (Pkg.folder self) package_name `prefix_of` q
     ∧ ¬ q `prefix_of` Path.div (Pkg.folder self) package_name) →
  fs (download self (Some packages) console w).1 !! q = fs w !! q.
Proof.
  intros Hwithin Hsync Htmp Hall.
  assert (download self (Some packages) console
          = for_each packages (download_package self console)) as ->.
  { unfold Pkg.download. by destruct packages. }
  revert w. induction packages as [|p l IH]; intros w; simpl; [done|]. unfold_M.
  pose proof (download_package_frame self console p w q Hwithin Hsync Htmp) as Hp.
  destruct (Hall p) as [H1 H2]; [by left|]. specialize (Hp H1 H2).
  destruct (download_package self console p w) as [w1 [[]|e]]; simpl in *; [|done].
  rewrite IH; [done|]. intros p' Hp'. apply Hall. by right.
Qed.

(** X15: one call over a list of packages is two calls over its halves:
    the second half is processed from the world the first half left, and
    only if the first half returned. *)
Theorem download_in_two_calls self console l1 l2 w :
  download self (Some (l1 ++ l2)) console w
  = match download self (Some l1) console w with
    | (w1, Ok _) => download self (Some l2) console w1
    | (w1, Raise e) => (w1, Raise e)
    end.
Proof.
  assert (∀ l, download self (Some l) console
               = for_each l (download_package self console)) as Hloop.
  { intros l. unfold Pkg.download. by destruct l. }
  rewrite !Hloop. apply for_each_app.
Qed.

End OrchestratorFrames.

(** ** Pruning, beyond the claims *)

Lemma clean_loop_frame (dependencies : list string) l : ∀ w w' r q,
  for_each l
    (λ existing_dep,
       if bool_decide (Path.name existing_dep ∈ dependencies) then mret tt
       else on_fs (λ fs, Fs.unlink fs existing_dep)) w
  = (w', r) →
  trace w' = trace w
  ∧ (fs w' !! q = fs w !! q
     ∨ (fs w' !! q = None ∧ (∃ code, fs w !! q = Some (File code))
        ∧ q ∈ l ∧ Path.name q ∉ dependencies)).
Proof.
  induction l as [|p l IH]; intros w w' r q; simpl.
  { unfold_M. intros [= <- _]. split; [done|by left]. }
  unfold_M. case_bool_decide as Hdecl.
  - intros Hrun. destruct (IH _ _ _ q Hrun) as [Ht [Hq|(Hq & Hc & Hin & Hn)]].
    + split; [done|by left].
    + split; [done|right]. split_and!; [done..|by right|done].
  - unfold Fs.unlink. destruct (fs w !! p) as [[code|]|] eqn:Hp; simpl.
    + intros Hrun. destruct (IH _ _ _ q Hrun) as [Ht [Hq|(Hq & Hc & Hin & Hn)]];
        simpl in *.
      * split; [done|]. destruct (decide (q = p)) as [->|Hne].
        -- right. rewrite Hq, lookup_delete_eq. split_and!; [done|by eexists|by left|done].
        -- left. by rewrite Hq, lookup_delete_ne.
      * split; [done|]. right. destruct Hc as [c Hc].
        destruct (decide (q = p)) as [->|Hne]; [by rewrite lookup_delete_eq in Hc|].
        rewrite lookup_delete_ne in Hc by done.
        split_and!; [done|by eexists|by right|done].
    + intros [= <- _]. split; [done|by left].
    + intros [= <- _]. split; [done|by left].
Qed.

(** X16: [clean] only ever removes plain files that sit directly in the
    folder of the group under a name that is not declared.  Every other
    path keeps what it had, nothing is created, and nothing is logged or
    fetched, whether [clean] returns or raises. *)
Theorem clean_removes_stale_files_only self w w' r q :
  Pkg.clean self w = (w', r) →
  trace w' = trace w
  ∧ (fs w' !! q = fs w !! q
     ∨ (fs w' !! q = None ∧ (∃ code, fs w !! q = Some (File code))
        ∧ Path.parent q = Pkg.folder self
        ∧ Path.name q ∉ keys (Pkg.dependencies (Pkg.config self)))).
Proof.
  unfold Pkg.clean. destruct (negb _).
  { intros [= <- _]. split; [done|by left]. }
  intros Hrun. destruct (clean_loop_frame _ _ _ _ _ q Hrun) as [Ht [Hq|(Hq & Hc & Hin & Hn)]].
  - split; [done|by left].
  - split; [done|right]. apply elem_of_glob in Hin as (_ & Hpar & _). done.
Qed.

Lemma parent_shorter p : p ≠ [] → Path.parent p ≠ p.
Proof.
  intros Hne Heq. pose proof (app_removelast_last "" Hne) as Hsplit.
  unfold Path.parent in Heq. rewrite Heq in Hsplit.
  apply (f_equal length) in Hsplit. rewrite length_app in Hsplit. simpl in Hsplit. lia.
Qed.

(** X17: pruning twice is pruning once.  When [clean] has returned, a
    second [clean] from the world it left returns too and changes
    nothing. *)
Theorem clean_again self w w' :
  Pkg.clean self w = (w', Ok tt) → Pkg.clean self w' = (w', Ok tt).
Proof.
  intros Hrun.
  destruct (Fs.exists_ (fs w) (Pkg.folder self)) eqn:Hex.
  2:{ rewrite clean_missing_folder in Hrun by done. injection Hrun as <-.
      by apply clean_missing_folder. }
  (* no undeclared directory was met, or the first run would have raised *)
  assert (∀ p, Path.parent p = Pkg.folder self → p ≠ [] →
               Path.name p ∉ keys (Pkg.dependencies (Pkg.config self)) →
               fs w !! p ≠ Some Dir) as Hfiles.
  { intros p Hpar Hne Hname Hdir.
    destruct (clean_stale_directory_raises self w p) as (w'' & Hraise & _); try done.
    congruence. }
  destruct (clean_removes_stale_files self w Hex Hfiles) as (w1 & Hrun1 & Ht1 & Hfs1).
  rewrite Hrun in Hrun1. injection Hrun1 as <-.
  assert (Fs.exists_ (fs w') (Pkg.folder self) = true) as Hex'.
  { unfold Fs.exists_ in *. destruct (Pkg.folder self) as [|x f] eqn:Hf; [done|].
    rewrite Hfs1. rewrite decide_False; [done|].
    intros [(_ & Hpar & Hne) _]. by apply (parent_shorter (x :: f)). }
  destruct (clean_removes_stale_files self w' Hex') as (w2 & Hrun2 & Ht2 & Hfs2).
  { intros p Hpar Hne Hname. rewrite Hfs1. case_decide; [done|by apply Hfiles]. }
  rewrite Hrun2. f_equal. destruct w2 as [fs2 t2], w' as [fs' t']. simpl in *.
  f_equal; [|done]. apply map_eq. intros q. rewrite Hfs2.
  case_decide as Hq; [|done]. destruct Hq as [([n Hn] & Hpar & Hne) Hname].
  rewrite Hfs1 in Hn. case_decide as HA; [done|].
  exfalso. apply HA. split; [|done]. split; [by eexists|done].
Qed.

(** ** Requests and staging *)

Section Requests.

Variable urlparse : string → result ParseResult.
Variable httpx_get : string → result string.
Variable ast_parses : string → bool.

Local Abbreviation download_dependency :=
  (Legacy.download_dependency urlparse httpx_get ast_parses).

(** X18: the legacy downloader asks the network for one thing only: the
    URL the resolver made of the declared path, and only when its suffix
    is .py.  Any request on the trace of a turn of the loop is for that
    URL. *)
Theorem download_dependency_requests_resolved
    dependencies local_dir console pkg_name w w' r u :
  download_dependency dependencies local_dir console pkg_name w = (w', r) →
  HttpGet u ∈ drop (length (trace w)) (trace w') →
  Path.suffix (Path.of_string u) = ".py"
  ∧ ∃ dep path_, getitem dependencies pkg_name = Ok dep
                 ∧ (dep = DepStr path_
                    ∨ ∃ d, dep = DepDict d ∧ getitem d "path" = Ok path_)
                 ∧ Legacy._process_url urlparse path_ = Ok u.
Proof.
  rewrite (download_dependency_unfold urlparse httpx_get ast_parses). intros Hrun Hin.
  assert (∀ t : list event, HttpGet u ∉ drop (length t) t) as Hnone.
  { intros t. rewrite drop_all. apply not_elem_of_nil. }
  assert (∀ (t : list event) msg,
            HttpGet u ∉ drop (length t) (t ++ if console then [ConsoleLog msg] else []))
    as Hlog.
  { intros t msg. rewrite drop_app_length.
    destruct console; [|apply not_elem_of_nil]. by intros ?%list_elem_of_singleton. }
  destruct (getitem dependencies pkg_name) as [dep|e] eqn:Hdep;
    [|injection Hrun as <- _; by destruct (Hnone _ Hin)].
  assert (∃ dep', match dep with
                  | DepStr s => Some [("path", s)]
                  | DepDict d => Some d
                  | _ => None
                  end = Some dep'
                  ∧ ∀ path_, getitem dep' "path" = Ok path_ →
                             dep = DepStr path_
                             ∨ ∃ d, dep = DepDict d ∧ getitem d "path" = Ok path_)
    as (dep' & Hnorm & Hpath).
  { destruct dep as [s|l|d|]; try (injection Hrun as <- _; by destruct (Hnone _ Hin)).
    - eexists. split; [done|]. intros path_ [= <-]. by left.
    - eexists. split; [done|]. intros path_ Hp. right. by exists d. }
  rewrite Hnorm in Hrun. cbv zeta in Hrun.
  destruct (getitem dep' "path") as [path_|e] eqn:Hp;
    [|injection Hrun as <- _; by destruct (Hlog _ _ Hin)].
  destruct (Legacy._process_url urlparse path_) as [url|e] eqn:Hurl;
    [|injection Hrun as <- _; by destruct (Hlog _ _ Hin)].
  destruct (String.eqb _ ".py") eqn:Hext;
    [|injection Hrun as <- _; by destruct (Hlog _ _ Hin)].
  apply String.eqb_eq in Hext.
  destruct (Fs.mkdir_parents _ _) as [fs1 [[]|e]];
    [|injection Hrun as <- _; by destruct (Hlog _ _ Hin)].
  (* from here on the trace holds the request for [url] *)
  assert (u = url) as ->.
  { assert (HttpGet u ∈ drop (length (trace w))
                ((trace w ++ (if console
                              then [ConsoleLog (pkg_name +:+ ": Updating...")]
                              else [])) ++ [HttpGet url]) →
              u = url) as Hreq.
    { rewrite <- (assoc_L (++)), drop_app_length.
      intros [H|H%list_elem_of_singleton]%elem_of_app; [|congruence].
      destruct console; [by apply list_elem_of_singleton in H|by apply elem_of_nil in H]. }
    assert (∀ msg,
              HttpGet u ∈ drop (length (trace w))
                (((trace w ++ (if console
                               then [ConsoleLog (pkg_name +:+ ": Updating...")]
                               else [])) ++ [HttpGet url])
                 ++ (if console then [ConsoleLog msg] else [])) →
              u = url) as Hreq'.
    { intros msg. rewrite <- !(assoc_L (++)), drop_app_length.
      intros [H|[H%list_elem_of_singleton|H]%elem_of_app]%elem_of_app; [|congruence|].
      - destruct console; [by apply list_elem_of_singleton in H|by apply elem_of_nil in H].
      - destruct console; [by apply list_elem_of_singleton in H|by apply elem_of_nil in H]. }
    destruct (httpx_get url) as [new_code|e];
      [|injection Hrun as <- _; by apply Hreq].
    destruct (ast_parses new_code);
      [|injection Hrun as <- _; by apply Hreq].
    destruct (match Fs.read_text fs1 _ with Ok a => _ | Raise e => _ end) as [old_code|e];
      [|injection Hrun as <- _; by apply Hreq].
    destruct (String.eqb new_code old_code).
    - injection Hrun as <- _. by eapply Hreq'.
    - destruct (Fs.write _ _ _) as [fs2 r2]. injection Hrun as <- _. by eapply Hreq'. }
  split; [done|]. exists dep, path_. split_and!; [done| |done]. by apply Hpath.
Qed.

End Requests.

Section Staging.

Variable ast_parses : string → bool.
Variable downloaders : list (string * downloader).
Variable fsspec_read : FS → string → string + fetch_error.
Variable fsspec_get : FS → string → fspath → FS * option fetch_error.
Variable sync : FS → fspath → fspath → FS * result bool.
Variable mkdtemp : FS → fspath.

Local Abbreviation download_uri := (Pkg.download_uri downloaders fsspec_read fsspec_get).
Local Abbreviation fetch := (Pkg.fetch downloaders fsspec_read fsspec_get).
Local Abbreviation download_package :=
  (Pkg.download_package ast_parses downloaders fsspec_read fsspec_get sync mkdtemp).
Local Abbreviation unfold_package :=
  (download_package_unfold ast_parses downloaders fsspec_read fsspec_get sync mkdtemp).

Lemma download_uri_events dst uri w :
  ∃ new, trace (download_uri dst uri w).1 = trace w ++ new
         ∧ Forall (Pkg.is_download dst uri) new.
Proof.
  unfold Pkg.download_uri.
  destruct (try_downloaders_cases fsspec_read fsspec_get downloaders dst uri w)
    as [[w1 H1]|[_ [called Hc]]].
  - pose proof (try_downloaders_skip fsspec_read fsspec_get downloaders [] dst uri w w1 H1) as H2.
    rewrite app_nil_r in H2. simpl in H2.
    exists (Pkg.calls downloaders dst uri ++ [CallGeneric dst uri]). split.
    + rewrite H2, download_generic_trace, (all_decline_trace _ _ _ _ _ H1).
      by rewrite <- (assoc_L (++)).
    + apply Forall_app. split.
      * apply Forall_fmap, Forall_forall. intros p _. left. by eexists.
      * apply Forall_singleton. by right.
  - exists (Pkg.calls called dst uri). split; [done|].
    apply Forall_fmap, Forall_forall. intros p _. left. by eexists.
Qed.

(** Every call to a downloader made while a package is processed has the
    temporary directory as its destination and the declared remote as its
    URI. *)
Lemma downloaders_see_staging
    self console package_name w w1 dep_src name d u :
  Pkg.prepare self console package_name w = (w1, Ok dep_src) →
  CallDownloader name d u
    ∈ drop (length (trace w1)) (trace (download_package self console package_name w).1)
  ∨ CallGeneric d u
    ∈ drop (length (trace w1)) (trace (download_package self console package_name w).1) →
  d = mkdtemp (fs w1) ∧ getitem dep_src "remote" = Ok u.
Proof.
  intros Hprep. rewrite unfold_package, Hprep. cbv beta iota zeta.
  set (tmp_dir := mkdtemp (fs w1)).
  set (w1' := mkWorld (<[tmp_dir := Dir]> (fs w1)) (trace w1)).
  assert (∀ uri (new rest : list event),
            Forall (Pkg.is_download tmp_dir uri) new →
            (∀ ev, ev ∈ rest → (∃ s t, ev = CallSync s t) ∨ ∃ msg, ev = ConsoleLog msg) →
            CallDownloader name d u ∈ drop (length (trace w1)) ((trace w1 ++ new) ++ rest)
            ∨ CallGeneric d u ∈ drop (length (trace w1)) ((trace w1 ++ new) ++ rest) →
            d = tmp_dir ∧ uri = u) as Hevents.
  { intros uri new rest Hnew Hrest. rewrite <- (assoc_L (++)), drop_app_length.
    rewrite Forall_forall in Hnew.
    intros [[H|H]%elem_of_app|[H|H]%elem_of_app].
    - destruct (Hnew _ H) as [[name' [= -> -> ->]]|[=]]. done.
    - destruct (Hrest _ H) as [(s & t & [=])|(msg & [=])].
    - destruct (Hnew _ H) as [[name' [=]]|[= -> ->]]. done.
    - destruct (Hrest _ H) as [(s & t & [=])|(msg & [=])]. }
  unfold Pkg.fetch. unfold_M.
  destruct (getitem dep_src "remote") as [uri|e] eqn:Hremote.
  2:{ simpl. rewrite drop_all. intros [H|H]; by apply elem_of_nil in H. }
  destruct (download_uri_events tmp_dir uri w1') as (new & Ht & Hnew).
  destruct (download_uri tmp_dir uri w1') as [w2 [a|e]]; simpl in Ht.
  2:{ simpl. rewrite Ht. intros H.
      destruct (Hevents uri new [] Hnew) as [-> ->]; [|by rewrite app_nil_r|done].
      intros ev Hev. by apply elem_of_nil in Hev. }
  unfold Pkg._verify_files. destruct (Pkg.verify_all _ _) as [[]|e].
  2:{ simpl. rewrite Ht. intros H.
      destruct (Hevents uri new [] Hnew) as [-> ->]; [|by rewrite app_nil_r|done].
      intros ev Hev. by apply elem_of_nil in Hev. }
  unfold Pkg.call_sync. unfold_M. cbn [fs trace].
  destruct (sync _ _ _) as [fs4 [changed|e]].
  - destruct console; simpl; unfold mret, M_ret; simpl; rewrite Ht; intros H.
    + rewrite <- (assoc_L (++) _ [_] [_]) in H.
      eapply (Hevents uri new _ Hnew) in H as [-> ->]; [done|].
      intros ev [->|Hev%list_elem_of_singleton]%elem_of_cons;
        [left; by eexists _, _|right; by eexists].
    + eapply (Hevents uri new _ Hnew) in H as [-> ->]; [done|].
      intros ev ->%list_elem_of_singleton. left. by eexists _, _.
  - simpl. rewrite Ht. intros H.
    eapply (Hevents uri new _ Hnew) in H as [-> ->]; [done|].
    intros ev ->%list_elem_of_singleton. left. by eexists _, _.
Qed.

(** X19: downloaders only ever see the staging directory.  When the
    temporary directory lies apart from the destination folder of the
    package, every call to a downloader, registered or generic, made while
    the package is processed has the temporary directory as its
    destination and the declared remote as its URI; the destination is
    not the destination folder of the package, nor a directory inside it or
    around it. *)
Theorem downloaders_see_staging_only
    self console package_name w w1 dep_src name d u :
  Pkg.tmp_apart mkdtemp (Path.div (Pkg.folder self) package_name) →
  Pkg.prepare self console package_name w = (w1, Ok dep_src) →
  CallDownloader name d u
    ∈ drop (length (trace w1)) (trace (download_package self console package_name w).1)
  ∨ CallGeneric d u
    ∈ drop (length (trace w1)) (trace (download_package self console package_name w).1) →
  d = mkdtemp (fs w1) ∧ getitem dep_src "remote" = Ok u
  ∧ d ≠ Path.div (Pkg.folder self) package_name
  ∧ ¬ Path.div (Pkg.folder self) package_name `prefix_of` d
  ∧ ¬ d `prefix_of` Path.div (Pkg.folder self) package_name.
Proof.
  intros Hapart Hprep Hcall.
  destruct (downloaders_see_staging _ _ _ _ _ _ _ _ _ Hprep Hcall) as [-> Hremote].
  destruct (Hapart (fs w1)) as [H1 H2]. split_and!; [done..| |done|done].
  intros Heq. apply H1. by rewrite Heq.
Qed.

End Staging.

(** X20: when every undeclared entry of the folder is a plain file,
    [clean] returns, removes exactly those entries and leaves every other
    path, the declared entries among them, as it was. *)
Theorem clean_prunes_plain_files self w :
  Fs.exists_ (fs w) (Pkg.folder self) = true →
  (∀ p, Path.parent p = Pkg.folder self → p ≠ [] →
        Path.name p ∉ keys (Pkg.dependencies (Pkg.config self)) →
        fs w !! p ≠ Some Dir) →
  ∃ w', Pkg.clean self w = (w', Ok tt)
        ∧ trace w' = trace w
        ∧ ∀ q, fs w' !! q
               = if decide ((is_Some (fs w !! q) ∧ Path.parent q = Pkg.folder self ∧ q ≠ [])
                            ∧ Path.name q ∉ keys (Pkg.dependencies (Pkg.config self)))
                 then None else fs w !! q.
Proof. apply clean_removes_stale_files. Qed.

(** ** The further properties at the concrete environment *)

Lemma demo_sync_within : Pkg.sync_within Demo.sync.
Proof.
  intros fs src dst q Hq. unfold Demo.sync. simpl.
  induction (Fs.rglob fs src) as [|e l IH]; simpl.
  - destruct (fs !! q) as [n|] eqn:E.
    + apply map_lookup_filter_Some. split; [done|]. simpl. by intros [? _].
    + apply map_lookup_filter_None. by left.
  - rewrite lookup_insert_ne; [done|]. intros <-. apply Hq. by apply prefix_app_r.
Qed.

Lemma demo_tmp_outside (fs : FS) q : ¬ Demo.mkdtemp fs `prefix_of` "deps" :: q.
Proof. unfold Demo.mkdtemp. intros [k Hk]. simpl in Hk. by simplify_eq. Qed.

Lemma download_dependencies_stores_parsed_code_witness :
  fs Demo.w0 !! ["lib"; "good.py"] = Some (File "def g(): return ()")
  ∨ (Demo.ast_parses "def g(): return ()" = true
     ∧ ∃ pkg_name url, ["lib"; "good.py"] = Path.div ["lib"] (pkg_name +:+ ".py")
                       ∧ Demo.httpx_get url = Ok "def g(): return ()").
Proof.
  apply (download_dependencies_stores_parsed_code py_urlparse Demo.httpx_get Demo.ast_parses
           [("good", DepStr "https://github.com/acme/lib/blob/main/good.py")]
           None ["lib"] true Demo.w0
           (Demo.download_dependencies
              [("good", DepStr "https://github.com/acme/lib/blob/main/good.py")]
              None ["lib"] true Demo.w0).1
           (Ok tt)).
  - vm_compute. reflexivity.
  - vm_compute. reflexivity.
Defined.

Lemma getitem_Forall {V} (P : V → Prop) (d : list (string * V)) key v :
  Forall (λ kv, P kv.2) d → getitem d key = Ok v → P v.
Proof.
  induction 1 as [|[k x] d Hx Hd IH]; simpl; [done|].
  destruct (String.eqb k key); [by intros [= <-]|done].
Qed.

Lemma demo_remote_without_cr url code :
  Demo.httpx_get url = Ok code → Str.contains Str.CR code = false.
Proof.
  unfold Demo.httpx_get.
  destruct (getitem Demo.remote url) as [data|e] eqn:Hget; [|done].
  intros [= <-]. revert Hget.
  apply (getitem_Forall (λ c, Str.contains Str.CR c = false)).
  repeat (constructor; [vm_compute; reflexivity|]). constructor.
Qed.

Lemma download_dependency_again_witness :
  ∃ w2,
    Legacy.download_dependency py_urlparse Demo.httpx_get Demo.ast_parses
      [("good", DepStr "https://github.com/acme/lib/blob/main/good.py")] ["lib"] true "good"
      (mkWorld (list_to_map [(["lib"], Dir);
                             (["lib"; "good.py"], File "def g(): return ()")])
         [ConsoleLog "good: Updating...";
          HttpGet "https://raw.githubusercontent.com/acme/lib/main/good.py";
          ConsoleLog "good: Updated."])
    = (w2, Ok tt)
    ∧ fs w2 = list_to_map [(["lib"], Dir);
                            (["lib"; "good.py"], File "def g(): return ()")]
    ∧ ConsoleLog ("good" +:+ ": Updated.") ∉ drop 3 (trace w2).
Proof.
  apply (download_dependency_again py_urlparse Demo.httpx_get Demo.ast_parses
           [("good", DepStr "https://github.com/acme/lib/blob/main/good.py")]
           ["lib"] true "good" Demo.w0).
  - apply demo_remote_without_cr.
  - vm_compute. reflexivity.
Defined.

Lemma download_generic_returns_inside_witness :
  (["tmp"; "plain.py"] = ["tmp"]
   ∨ ["tmp"; "plain.py"]
     = Path.div ["tmp"] (Path.name (Path.of_string "https://example.com/lib/plain.py")))
  ∧ ["tmp"] `prefix_of` ["tmp"; "plain.py"].
Proof.
  apply (download_generic_returns_inside Demo.fsspec_read Demo.fsspec_get
           ["tmp"] "https://example.com/lib/plain.py"
           (mkWorld (list_to_map [(["tmp"], Dir)]) [])
           (Pkg._download_generic Demo.fsspec_read Demo.fsspec_get
              ["tmp"] "https://example.com/lib/plain.py"
              (mkWorld (list_to_map [(["tmp"], Dir)]) [])).1).
  vm_compute. reflexivity.
Defined.

Lemma download_uri_confined_witness :
  fs (Pkg.download_uri Demo.downloaders Demo.fsspec_read Demo.fsspec_get
        ["tmp"; "tmp0"] "https://github.com/acme/lib/good.py" Demo.stale).1
    !! ["deps"; "main"; "bar"]
  = fs Demo.stale !! ["deps"; "main"; "bar"].
Proof.
  apply download_uri_confined.
  - apply demo_downloads_within.
  - intros [k Hk]. simpl in Hk. by simplify_eq.
Defined.

Lemma download_package_removes_staging_witness :
  fs (Demo.download_package Demo.main true "bad" Demo.w0).1 !! ["tmp"; "tmp0"; "bad.py"]
  = None.
Proof.
  apply (download_package_removes_staging Demo.ast_parses Demo.downloaders
           Demo.fsspec_read Demo.fsspec_get Demo.sync Demo.mkdtemp
           Demo.main true "bad" Demo.w0
           (Pkg.prepare Demo.main true "bad" Demo.w0).1
           [("remote", "https://github.com/acme/lib/bad.py")]).
  - vm_compute. reflexivity.
  - by exists ["bad.py"].
Defined.



Lemma sync_called_iff_verified_witness :
  CallSync ["tmp"; "tmp0"] ["deps"; "main"; "good"]
    ∈ drop (length (trace Demo.w0))
        (trace (Demo.download_package Demo.main true "good" Demo.w0).1)
  ↔ (Pkg._verify_files Demo.ast_parses ["tmp"; "tmp0"]
       (Pkg.stage Demo.downloaders Demo.fsspec_read Demo.fsspec_get Demo.mkdtemp
          Demo.main true "good" Demo.w0).1).2 = Ok tt
    ∧ ["tmp"; "tmp0"] = ["tmp"; "tmp0"]
    ∧ ["deps"; "main"; "good"] = Path.div (Pkg.folder Demo.main) "good".
Proof.
  apply (sync_called_iff_verified Demo.ast_parses Demo.downloaders
           Demo.fsspec_read Demo.fsspec_get Demo.sync Demo.mkdtemp
           Demo.main true "good" Demo.w0).
  vm_compute. reflexivity.
Defined.

Lemma download_touches_named_packages_only_witness :
  fs (Demo.download Demo.without_baz (Some ["foo"]) true Demo.stale).1
    !! ["deps"; "main"; "baz"]
  = fs Demo.stale !! ["deps"; "main"; "baz"].
Proof.
  apply (download_touches_named_packages_only Demo.ast_parses Demo.downloaders
           Demo.fsspec_read Demo.fsspec_get Demo.sync Demo.mkdtemp).
  - apply demo_downloads_within.
  - apply demo_sync_within.
  - intros fs. apply demo_tmp_outside.
  - intros p ->%list_elem_of_singleton. split; intros [k Hk]; vm_compute in Hk;
      discriminate Hk.
Defined.

Lemma clean_removes_stale_files_only_witness :
  trace (Pkg.clean Demo.without_baz Demo.stale).1 = trace Demo.stale
  ∧ (fs (Pkg.clean Demo.without_baz Demo.stale).1 !! ["deps"; "main"; "baz"]
     = fs Demo.stale !! ["deps"; "main"; "baz"]
     ∨ (fs (Pkg.clean Demo.without_baz Demo.stale).1 !! ["deps"; "main"; "baz"] = None
        ∧ (∃ code, fs Demo.stale !! ["deps"; "main"; "baz"] = Some (File code))
        ∧ Path.parent ["deps"; "main"; "baz"] = Pkg.folder Demo.without_baz
        ∧ Path.name ["deps"; "main"; "baz"]
          ∉ keys (Pkg.dependencies (Pkg.config Demo.without_baz)))).
Proof.
  apply (clean_removes_stale_files_only Demo.without_baz Demo.stale _ (Ok tt)).
  vm_compute. reflexivity.
Defined.

Lemma clean_again_witness :
  Pkg.clean Demo.without_baz (Pkg.clean Demo.without_baz Demo.stale).1
  = ((Pkg.clean Demo.without_baz Demo.stale).1, Ok tt).
Proof.
  apply (clean_again Demo.without_baz Demo.stale). vm_compute. reflexivity.
Defined.

Lemma download_dependency_requests_resolved_witness :
  Path.suffix (Path.of_string "https://raw.githubusercontent.com/acme/lib/main/good.py") = ".py"
  ∧ ∃ dep path_,
      getitem [("good", DepStr "https://github.com/acme/lib/blob/main/good.py")] "good" = Ok dep
      ∧ (dep = DepStr path_ ∨ ∃ d, dep = DepDict d ∧ getitem d "path" = Ok path_)
      ∧ Legacy._process_url py_urlparse path_
        = Ok "https://raw.githubusercontent.com/acme/lib/main/good.py".
Proof.
  apply (download_dependency_requests_resolved py_urlparse Demo.httpx_get Demo.ast_parses
           [("good", DepStr "https://github.com/acme/lib/blob/main/good.py")]
           ["lib"] true "good" Demo.w0
           (Legacy.download_dependency py_urlparse Demo.httpx_get Demo.ast_parses
              [("good", DepStr "https://github.com/acme/lib/blob/main/good.py")]
              ["lib"] true "good" Demo.w0).1
           (Ok tt)).
  - vm_compute. reflexivity.
  - vm_compute. apply elem_of_cons. right. apply elem_of_cons. by left.
Defined.

Lemma downloaders_see_staging_only_witness :
  ["tmp"; "tmp0"] = Demo.mkdtemp (fs (Pkg.prepare Demo.main true "plain" Demo.w0).1)
  ∧ getitem [("remote", "https://example.com/lib/plain.py")] "remote"
    = Ok "https://example.com/lib/plain.py"
  ∧ ["tmp"; "tmp0"] ≠ Path.div (Pkg.folder Demo.main) "plain"
  ∧ ¬ Path.div (Pkg.folder Demo.main) "plain" `prefix_of` ["tmp"; "tmp0"]
  ∧ ¬ ["tmp"; "tmp0"] `prefix_of` Path.div (Pkg.folder Demo.main) "plain".
Proof.
  apply (downloaders_see_staging_only Demo.ast_parses Demo.downloaders
           Demo.fsspec_read Demo.fsspec_get Demo.sync Demo.mkdtemp
           Demo.main true "plain" Demo.w0
           (Pkg.prepare Demo.main true "plain" Demo.w0).1
           [("remote", "https://example.com/lib/plain.py")] "github").
  - apply (demo_tmp_apart "plain").
  - vm_compute. reflexivity.
  - right. vm_compute. apply elem_of_cons. right. apply elem_of_cons. by left.
Defined.

Lemma clean_prunes_plain_files_witness :
  ∃ w', Pkg.clean Demo.without_baz Demo.stale = (w', Ok tt)
        ∧ trace w' = trace Demo.stale
        ∧ ∀ q, fs w' !! q
               = if decide ((is_Some (fs Demo.stale !! q)
                             ∧ Path.parent q = Pkg.folder Demo.without_baz ∧ q ≠ [])
                            ∧ Path.name q
                              ∉ keys (Pkg.dependencies (Pkg.config Demo.without_baz)))
                 then None else fs Demo.stale !! q.
Proof.
  apply (clean_prunes_plain_files Demo.without_baz Demo.stale).
  - reflexivity.
  - intros p Hpar Hne Hname Hdir. apply elem_of_map_to_list in Hdir.
    set (entries := map_to_list (fs Demo.stale)) in Hdir.
    vm_compute in entries. subst entries.
    repeat (apply elem_of_cons in Hdir as [Hdir|Hdir];
            [try discriminate Hdir; injection Hdir as ->;
             first [ discriminate Hpar | exfalso; apply Hname; vm_compute; by left ]|]).
    by apply elem_of_nil in Hdir.
Defined.
